(** * The Mind Studio: the scoring core of [app.py]

    A shallow embedding of the four pure operations of the questionnaire
    back end: [build_answer_vector], [build_ai_feature_vector] (the
    feature encoder), [compute_similarity] and [generate_profile].

    Conventions of the embedding.
    - A Python [int] is a [Z]; a [Dict[str, int]] is a [gmap string Z].
      The iteration order of a dict is not kept: every loop of the source
      over a dict or a set folds a commutative operation.
    - A Python exception is a value [Raised e] of the type [outcome]; code
      that can raise lives in that monad, and [try: ... except Exception:]
      is [try_except].
    - A Python [float] obtained as the quotient of two integers is the exact
      rational ([Q], kept in lowest terms so that equal numbers are equal
      terms); [int / int] raises [ZeroDivisionError] and [OverflowError] as
      CPython does.
    - The float64 arithmetic done by numpy and scikit-learn (mean, standard
      deviation, norm, cosine) is carried out in the real numbers [R]:
      rounding, infinities and not-a-number values are outside the model, so
      [isnan] is constantly [false] on it. *)

From Stdlib Require Import ZArith QArith Qreals Reals Lra Lia Psatz Sorted.
From stdpp Require Import gmap strings list fin_maps pretty.

Local Open Scope Z_scope.

(** ** Python *)

Module Py.

Inductive exn : Type :=
| ZeroDivisionError
| OverflowError
| ValueError
| KeyError.

Inductive outcome (A : Type) : Type :=
| Returned (a : A)
| Raised (e : exn).
Arguments Returned {A} a.
Arguments Raised {A} e.

#[global] Instance outcome_ret : MRet outcome := fun A a => Returned a.
#[global] Instance outcome_bind : MBind outcome := fun A B f m =>
  match m with
  | Returned a => f a
  | Raised e => Raised e
  end.
#[global] Instance outcome_fmap : FMap outcome := fun A B f m =>
  match m with
  | Returned a => Returned (f a)
  | Raised e => Raised e
  end.

(** [try: body except Exception as e: handler e] *)
Definition try_except {A : Type} (body : outcome A) (handler : exn -> outcome A)
  : outcome A :=
  match body with
  | Returned a => Returned a
  | Raised e => handler e
  end.

(** A statement that either leaves the function with [return v] or falls
    through with the value of the variables it has set. *)
Inductive flow (A B : Type) : Type :=
| Return_ (v : A)
| Continue (x : B).
Arguments Return_ {A B} v.
Arguments Continue {A B} x.

(** The least magnitude that no longer rounds to a finite double: the
    midpoint between the largest double, 2^1024 - 2^971, and 2^1024. *)
Definition DBL_OVERFLOW : Z := 2 ^ 1024 - 2 ^ 970.

(** [a / b] on two ints: the correctly rounded quotient, here the exact
    one in lowest terms. *)
Definition truediv (a b : Z) : outcome Q :=
  if (b =? 0)%Z then Raised ZeroDivisionError
  else if (DBL_OVERFLOW * Z.abs b <=? Z.abs a)%Z then Raised OverflowError
  else Returned (Qred (Qmake (a * Z.sgn b) (Z.to_pos (Z.abs b)))).

(** [d[k]] *)
Definition getitem (d : gmap string Z) (k : string) : outcome Z :=
  match d !! k with
  | Some v => Returned v
  | None => Raised KeyError
  end.

(** [d.get(k, dflt)] *)
Definition get (d : gmap string Z) (k : string) (dflt : Z) : Z :=
  default dflt (d !! k).

(** [d.items()] and [list(d.values())] *)
Definition items (d : gmap string Z) : list (string * Z) := map_to_list d.
Definition values (d : gmap string Z) : list Z := (map_to_list d).*2.

(** [len(l)] and the truth value of a list *)
Definition len {A : Type} (l : list A) : Z := Z.of_nat (length l).
Definition truthy {A : Type} (l : list A) : bool :=
  match l with
  | [] => false
  | _ :: _ => true
  end.

(** [max(0.0, min(1.0, x))] on numbers *)
Definition clamp01 (x : R) : R := Rmax 0 (Rmin 1 x).

End Py.
Export Py.

(** ** numpy and scikit-learn, in the reals *)

Module Np.

Definition sum (xs : list R) : R := foldr Rplus 0%R xs.

(** [np.mean(values)] of a list of ints *)
Definition mean (values : list Z) : R :=
  (sum (IZR <$> values) / INR (length values))%R.

(** [np.std(values)]: the square root of the mean squared deviation
    (numpy's default, [ddof=0]) *)
Definition std (values : list Z) : R :=
  let m := mean values in
  sqrt (sum ((fun x => (IZR x - m) * (IZR x - m))%R <$> values)
        / INR (length values)).

(** [np.max] and [np.min] raise [ValueError] on an empty sequence. *)
Definition max (values : list Z) : outcome Z :=
  match values with
  | [] => Raised ValueError
  | x :: xs => Returned (foldl Z.max x xs)
  end.

Definition min (values : list Z) : outcome Z :=
  match values with
  | [] => Raised ValueError
  | x :: xs => Returned (foldl Z.min x xs)
  end.

Definition isnan (x : R) : bool := false.

Definition dot (x y : list R) : R := sum (zip_with Rmult x y).

(** [np.linalg.norm(x)] of a one-dimensional array *)
Definition norm (x : list R) : R := sqrt (dot x x).

(** The machine epsilon of float64. *)
Definition eps : R := (/ 2 ^ 52)%R.

(** [sklearn.preprocessing.normalize] on one row: the row divided by its
    norm, a norm below [10 * eps] being replaced by 1. *)
Definition normalize (x : list R) : list R :=
  let n := norm x in
  let n := if Rlt_dec n (10 * eps) then 1%R else n in
  (fun v => v / n)%R <$> x.

(** [sklearn.metrics.pairwise.cosine_similarity] of two rows *)
Definition cosine_similarity (x y : list R) : R :=
  dot (normalize x) (normalize y).

End Np.

(** ** The application *)

Record Answer : Type := { question_id : string; option_value : Z }.

(** [{a.question_id: a.option_value for a in answers}]: a later answer to
    the same question replaces the earlier one. *)
Definition build_answer_vector (answers : list Answer) : gmap string Z :=
  foldl (fun d a => <[question_id a := option_value a]> d) ∅ answers.

Definition question_order : list string :=
  [ "ack_1"; "ack_2"; "ack_3";
    "bp_1"; "bp_2"; "bp_3";
    "gd_1"; "gd_2"; "gd_3";
    "rc_1"; "rc_2"; "rc_3" ].

(** [f"{theme}_{i}"] *)
Definition theme_qid (theme : string) (i : Z) : string :=
  theme +:+ "_" +:+ pretty i.

Definition theme_values (answer_vector : gmap string Z) (theme : string) : list Z :=
  (fun i => Py.get answer_vector (theme_qid theme i) 0) <$> [1; 2; 3]%Z.

Definition base_features (answer_vector : gmap string Z) : list Z :=
  (fun qid => Py.get answer_vector qid 0) <$> question_order.

Definition safe_std (values : list Z) : R :=
  if (Py.len values <=? 1)%Z then 0%R
  else
    let std_val := Np.std values in
    if Np.isnan std_val then 0%R else std_val.

(** [np.mean(values) if values else 0.0] *)
Definition mean_or_zero (values : list Z) : R :=
  if Py.truthy values then Np.mean values else 0%R.

Definition thematic_features (answer_vector : gmap string Z) : list R :=
  let ack_values := theme_values answer_vector "ack" in
  let bp_values := theme_values answer_vector "bp" in
  let gd_values := theme_values answer_vector "gd" in
  let rc_values := theme_values answer_vector "rc" in
  [ mean_or_zero ack_values; safe_std ack_values;
    mean_or_zero bp_values; safe_std bp_values;
    mean_or_zero gd_values; safe_std gd_values;
    mean_or_zero rc_values; safe_std rc_values ].

(** [len([v for v in all_values if p v]) / len(all_values) if all_values else 0] *)
Definition intensity_ratio (p : Z -> bool) (all_values : list Z) : outcome Q :=
  if Py.truthy all_values
  then Py.truediv (Py.len (List.filter p all_values)) (Py.len all_values)
  else mret 0%Q.

Definition pattern_features (answer_vector : gmap string Z) : outcome (list R) :=
  let all_values := Py.values answer_vector in
  peak ← (if Py.truthy all_values then IZR <$> Np.max all_values else mret 0%R);
  low ← (if Py.truthy all_values then IZR <$> Np.min all_values else mret 0%R);
  high_ratio ← intensity_ratio (fun v => (2 <=? v)%Z) all_values;
  low_ratio ← intensity_ratio (fun v => (v <=? 1)%Z) all_values;
  mret [ mean_or_zero all_values; safe_std all_values; peak; low;
         Q2R high_ratio; Q2R low_ratio ].

(** The array before normalisation: base, thematic and pattern features. *)
Definition raw_feature_vector (answer_vector : gmap string Z) : outcome (list R) :=
  pattern ← pattern_features answer_vector;
  mret ((IZR <$> base_features answer_vector)
        ++ thematic_features answer_vector ++ pattern).

Definition build_ai_feature_vector (answer_vector : gmap string Z) : outcome (list R) :=
  feature_vector ← raw_feature_vector answer_vector;
  let norm := Np.norm feature_vector in
  if Rlt_dec 1e-10 norm
  then mret ((fun x => x / norm)%R <$> feature_vector)
  else mret ((fun _ => 0%R) <$> feature_vector).

(** [sum(1 for q in shared_questions if vec_a[q] == vec_b[q])] *)
Definition count_exact_matches (vec_a vec_b : gmap string Z) (shared : list string)
  : outcome Z :=
  foldr (fun q rest =>
           a ← Py.getitem vec_a q;
           b ← Py.getitem vec_b q;
           n ← rest;
           mret (if (a =? b)%Z then (1 + n)%Z else n))
        (mret 0%Z) shared.

(** Lines 129-132 and 138: the share of the common questions that were
    answered alike, 0.0 when no question is common. *)
Definition exact_ratio_of (vec_a vec_b : gmap string Z) : outcome Q :=
  let shared_questions : gset string := dom vec_a ∩ dom vec_b in
  if bool_decide (shared_questions ≠ ∅) then
    exact_matches ← count_exact_matches vec_a vec_b (elements shared_questions);
    Py.truediv exact_matches (Z.of_nat (size shared_questions))
  else mret 0%Q.

(** The value of [ai_similarity] after line 159. *)
Definition ai_similarity_of (features_a features_b : list R) (exact_ratio : Q) : R :=
  let ai_similarity := Np.cosine_similarity features_a features_b in
  if Np.isnan ai_similarity then Q2R exact_ratio
  else if Rlt_dec ai_similarity 0 then Q2R exact_ratio
  else ai_similarity.

(** The body of the [try] block, lines 142-159. The encoder it calls is a
    parameter, so that the [except] clause can be stated for whatever the
    numeric code does. *)
Definition ai_block_with (encode : gmap string Z -> outcome (list R))
    (vec_a vec_b : gmap string Z) (exact_ratio : Q) : outcome (flow R R) :=
  features_a ← encode vec_a;
  features_b ← encode vec_b;
  if existsb Np.isnan features_a || existsb Np.isnan features_b
  then mret (Return_ (Q2R exact_ratio))
  else mret (Continue (ai_similarity_of features_a features_b exact_ratio)).

(** Lines 168-173. *)
Definition combined_similarity (exact_ratio : Q) (ai_similarity : R) : R :=
  if Qle_bool (9 # 10) exact_ratio
  then (Q2R exact_ratio * 0.6 + ai_similarity * 0.4)%R
  else (ai_similarity * 0.6 + Q2R exact_ratio * 0.4)%R.

Definition compute_similarity_with (encode : gmap string Z -> outcome (list R))
    (vec_a vec_b : gmap string Z) : outcome R :=
  if bool_decide (vec_a = ∅) || bool_decide (vec_b = ∅) then mret 0%R
  else
    let shared_questions : gset string := dom vec_a ∩ dom vec_b in
    exact_ratio ← exact_ratio_of vec_a vec_b;
    if bool_decide (shared_questions ≠ ∅) && Qle_bool 1 exact_ratio then mret 1%R
    else
      block ← try_except (ai_block_with encode vec_a vec_b exact_ratio)
                         (fun _ => mret (Return_ (Q2R exact_ratio)));
      match block with
      | Return_ v => mret v
      | Continue ai_similarity =>
          mret (Py.clamp01 (combined_similarity exact_ratio ai_similarity))
      end.

Definition compute_similarity (vec_a vec_b : gmap string Z) : outcome R :=
  compute_similarity_with build_ai_feature_vector vec_a vec_b.

(** *** The profile generator *)

Record dimensions (A : Type) : Type := Dimensions {
  emotional_clarity : A;
  stress_management : A;
  growth_mindset : A;
  boundaries : A;
  relationship_safety : A
}.
Arguments Dimensions {A} _ _ _ _ _.
Arguments emotional_clarity {A} _.
Arguments stress_management {A} _.
Arguments growth_mindset {A} _.
Arguments boundaries {A} _.
Arguments relationship_safety {A} _.

Record profile : Type := Profile {
  profile_dimensions : dimensions Q;
  profile_summary : string
}.

Definition qid_in (qid : string) (ids : list string) : bool :=
  bool_decide (qid ∈ ids).

(** One turn of the loop of lines 198-211. *)
Definition accumulate (dims : dimensions Z) (item : string * Z) : dimensions Z :=
  let '(qid, value) := item in
  let dims :=
    if qid_in qid ["ack_1"; "ack_2"; "ack_3"]
    then Dimensions (emotional_clarity dims + value) (stress_management dims)
           (growth_mindset dims) (boundaries dims) (relationship_safety dims)
    else dims in
  let dims :=
    if qid_in qid ["bp_1"; "bp_2"; "bp_3"]
    then Dimensions (emotional_clarity dims) (stress_management dims + value)
           (growth_mindset dims) (boundaries dims + value) (relationship_safety dims)
    else dims in
  let dims :=
    if qid_in qid ["gd_1"; "gd_2"; "gd_3"]
    then Dimensions (emotional_clarity dims) (stress_management dims)
           (growth_mindset dims + value) (boundaries dims) (relationship_safety dims)
    else dims in
  if qid_in qid ["rc_1"; "rc_2"; "rc_3"]
  then Dimensions (emotional_clarity dims) (stress_management dims)
         (growth_mindset dims) (boundaries dims) (relationship_safety dims + value)
  else dims.

Definition profile_totals (answer_vector : gmap string Z) : dimensions Z :=
  foldl accumulate (Dimensions 0 0 0 0 0)%Z (Py.items answer_vector).

Definition max_per_question : Z := 3.
Definition max_questions_per_dim : Z := 3.
Definition max_score : Z := max_per_question * max_questions_per_dim.

(** [(v / max_score) if max_score else 0.0] *)
Definition normalise_score (v : Z) : outcome Q :=
  if (max_score =? 0)%Z then mret 0%Q else Py.truediv v max_score.

Definition normalise (dims : dimensions Z) : outcome (dimensions Q) :=
  ec ← normalise_score (emotional_clarity dims);
  sm ← normalise_score (stress_management dims);
  gm ← normalise_score (growth_mindset dims);
  bd ← normalise_score (boundaries dims);
  rs ← normalise_score (relationship_safety dims);
  mret (Dimensions ec sm gm bd rs).

(** [if score >= 0.7: append strong elif score <= 0.3: append weak] *)
Definition band (score : Q) (strong weak : string) : list string :=
  if Qle_bool (7 # 10) score then [strong]
  else if Qle_bool score (3 # 10) then [weak]
  else [].

Definition summary_parts (normalized : dimensions Q) : list string :=
  band (emotional_clarity normalized)
    "You show strong emotional awareness and reflection."
    "You may be in a phase where your inner world feels unclear or heavy."
  ++ band (stress_management normalized)
    "You tend to recognize patterns in your stress and have some strategies to cope."
    "Stress may be building up in ways that are hard to manage sustainably."
  ++ band (growth_mindset normalized)
    "You seem to be growing a lot through self-reflection and change."
    "You might be feeling a bit stuck or unsure about your direction right now."
  ++ band (boundaries normalized)
    "You are actively thinking about protecting your time, energy, and peace."
    "There may be opportunities to set gentler boundaries for yourself."
  ++ band (relationship_safety normalized)
    "Safe and supportive connections seem important and present in your life."
    "You may be craving deeper understanding and safety in relationships.".

Definition generate_profile (answer_vector : gmap string Z) : outcome profile :=
  let dims := profile_totals answer_vector in
  normalized ← normalise dims;
  let parts := summary_parts normalized in
  let parts :=
    if Py.truthy parts then parts
    else [ "Your responses suggest a mix of strengths and growth areas across emotions, boundaries, stress, and relationships." ] in
  mret (Profile normalized (String.concat " " parts)).

(** ** The request handlers *)

(** An insertion-ordered dict with string keys, as [participants] is: a
    list of items in the order of first insertion. *)
Definition odict (V : Type) : Type := list (string * V).

(** [d.get(k)] as an option, [k in d] and [d[k]] *)
Fixpoint odict_lookup {V : Type} (d : odict V) (k : string) : option V :=
  match d with
  | [] => None
  | (k', v) :: rest => if decide (k' = k) then Some v else odict_lookup rest k
  end.

Definition odict_contains {V : Type} (d : odict V) (k : string) : bool :=
  match odict_lookup d k with
  | Some _ => true
  | None => false
  end.

Definition odict_getitem {V : Type} (d : odict V) (k : string) : outcome V :=
  match odict_lookup d k with
  | Some v => Returned v
  | None => Raised KeyError
  end.

(** [d[k] = v]: a key already present keeps its place, a new key goes to
    the end. *)
Fixpoint odict_setitem {V : Type} (d : odict V) (k : string) (v : V) : odict V :=
  match d with
  | [] => [(k, v)]
  | (k', v') :: rest =>
      if decide (k' = k) then (k, v) :: rest
      else (k', v') :: odict_setitem rest k v
  end.

(** [list(d.keys())] *)
Definition odict_keys {V : Type} (d : odict V) : list string := d.*1.

(** [l.sort(key=key, reverse=True)]: a stable sort, the greatest key
    first; items of equal key keep their order. *)
Fixpoint insert_desc {A : Type} (key : A -> R) (x : A) (l : list A) : list A :=
  match l with
  | [] => [x]
  | y :: rest =>
      if Rlt_dec (key x) (key y) then y :: insert_desc key x rest
      else x :: y :: rest
  end.

Definition sort_desc {A : Type} (key : A -> R) (l : list A) : list A :=
  foldr (insert_desc key) [] l.

Record ParticipantSubmission : Type := {
  participant_id : string;
  answers : list Answer;
  participant_name : option string
}.

(** [payload.participant_name or payload.participant_id]: [None] and the
    empty string both give way to the identifier. *)
Definition display_name (payload : ParticipantSubmission) : string :=
  match participant_name payload with
  | Some name => if decide (name = "") then participant_id payload else name
  | None => participant_id payload
  end.

(** An entry of [participants]. *)
Record Participant : Type := {
  stored_id : string;
  stored_name : string;
  stored_answers : gmap string Z;
  stored_profile : profile;
  stored_timestamp : string
}.

(** An entry of [profile_snapshots]. *)
Record Snapshot : Type := {
  snapshot_participant_id : string;
  snapshot_participant_name : string;
  snapshot_answers : gmap string Z;
  snapshot_profile : profile;
  snapshot_timestamp : string;
  snapshot_ai_feature_vector : list R
}.

(** The two module-level stores of lines 37-38. *)
Record Store : Type := {
  participants : odict Participant;
  profile_snapshots : list Snapshot
}.

Definition empty_store : Store :=
  {| participants := []; profile_snapshots := [] |}.

Record Similar : Type := {
  similar_participant_id : string;
  similar_participant_name : string;
  similarity : R;
  similarity_percentage : R
}.

Record SubmitResponse : Type := {
  response_participant_id : string;
  response_participant_name : string;
  response_profile : profile;
  response_profile_snapshot : Snapshot;
  highly_similar_participants : list Similar;
  has_similar_matches : bool;
  submission_timestamp : string
}.

Record SimilarPair : Type := {
  participant_a : string;
  participant_a_name : string;
  participant_b : string;
  participant_b_name : string;
  pair_similarity : R;
  pair_similarity_percentage : R
}.




(** A handler reads and updates the stores and may raise: the stores it
    leaves behind are the ones at the moment of the exception. *)
Definition handler (A : Type) : Type := Store -> Store * outcome A.

#[global] Instance handler_ret : MRet handler := fun A a st => (st, Returned a).
#[global] Instance handler_bind : MBind handler := fun A B f m st =>
  match m st with
  | (st', Returned a) => f a st'
  | (st', Raised e) => (st', Raised e)
  end.

Definition lift {A : Type} (o : outcome A) : handler A := fun st => (st, o).
Definition read_store : handler Store := fun st => (st, Returned st).
Definition write_store (st' : Store) : handler unit := fun _ => (st', Returned tt).

Section Handlers.

(** [round(x, ndigits)] of Python, left open: the handlers only store what
    it returns. The clock read by [datetime.now().isoformat()] is the
    argument [now] of [submit_responses]. *)
Variable round_ndigits : R -> Z -> R.

(** [score >= 0.9] *)
Definition highly_similar (score : R) : bool :=
  if Rle_dec 0.9 score then true else false.

(** The dict literals of lines 297-302 and 336-343. *)
Definition similar_entry (other_id : string) (other_data : Participant)
    (score : R) : Similar :=
  {| similar_participant_id := other_id;
     similar_participant_name := stored_name other_data;
     similarity := round_ndigits score 4;
     similarity_percentage := round_ndigits (score * 100) 2 |}.

Definition pair_entry (a b : Participant) (score : R) : SimilarPair :=
  {| participant_a := stored_id a;
     participant_a_name := stored_name a;
     participant_b := stored_id b;
     participant_b_name := stored_name b;
     pair_similarity := round_ndigits score 4;
     pair_similarity_percentage := round_ndigits (score * 100) 2 |}.

(** The loop of lines 288-303 over [participants.items()]. *)
Fixpoint similar_loop (pid : string) (answer_vector : gmap string Z)
    (items : odict Participant) : outcome (list Similar) :=
  match items with
  | [] => mret []
  | (other_id, other_data) :: rest =>
      if decide (other_id = pid) then similar_loop pid answer_vector rest
      else
        score ← compute_similarity answer_vector (stored_answers other_data);
        similarities ← similar_loop pid answer_vector rest;
        mret (if highly_similar score
              then similar_entry other_id other_data score :: similarities
              else similarities)
  end.

(** The dict literals of lines 268-275 and 278-284. *)
Definition new_snapshot (now : string) (payload : ParticipantSubmission)
    (profile : profile) (features : list R) : Snapshot :=
  {| snapshot_participant_id := participant_id payload;
     snapshot_participant_name := display_name payload;
     snapshot_answers := build_answer_vector (answers payload);
     snapshot_profile := profile;
     snapshot_timestamp := now;
     snapshot_ai_feature_vector := features |}.

Definition new_participant (payload : ParticipantSubmission) (profile : profile)
    (snapshot : Snapshot) : Participant :=
  {| stored_id := participant_id payload;
     stored_name := display_name payload;
     stored_answers := build_answer_vector (answers payload);
     stored_profile := profile;
     stored_timestamp := snapshot_timestamp snapshot |}.

Definition submit_responses (now : string) (payload : ParticipantSubmission)
  : handler SubmitResponse :=
  let answer_vector := build_answer_vector (answers payload) in
  profile ← lift (generate_profile answer_vector);
  features ← lift (build_ai_feature_vector answer_vector);
  let snapshot := new_snapshot now payload profile features in
  st ← read_store;
  write_store
    {| participants :=
         odict_setitem (participants st) (participant_id payload)
           (new_participant payload profile snapshot);
       profile_snapshots := profile_snapshots st |};;
  st ← read_store;
  write_store
    {| participants := participants st;
       profile_snapshots := profile_snapshots st ++ [snapshot] |};;
  st ← read_store;
  similarities ← lift (similar_loop (participant_id payload) answer_vector
                         (participants st));
  let similarities := sort_desc similarity similarities in
  mret {| response_participant_id := participant_id payload;
          response_participant_name := display_name payload;
          response_profile := profile;
          response_profile_snapshot := snapshot;
          highly_similar_participants := similarities;
          has_similar_matches := (0 <? Py.len similarities);
          submission_timestamp := snapshot_timestamp snapshot |}.

(** The inner loop of lines 329-345, for one [i]: [js] are the identifiers
    [ids[i+1:]]. *)
Fixpoint pair_loop (stored : odict Participant) (i : string) (js : list string)
  : outcome (list SimilarPair) :=
  match js with
  | [] => mret []
  | j :: rest =>
      a ← odict_getitem stored i;
      b ← odict_getitem stored j;
      score ← compute_similarity (stored_answers a) (stored_answers b);
      pairs ← pair_loop stored i rest;
      mret (if highly_similar score
            then pair_entry a b score :: pairs
            else pairs)
  end.



Definition get_snapshots : handler (Z * list Snapshot) :=
  st ← read_store;
  mret (Py.len (profile_snapshots st), profile_snapshots st).


(** [reset]: both stores are cleared. *)
Definition reset : handler (string * string) :=
  write_store empty_store;;
  mret ("ok", "All participants and snapshots cleared.").

End Handlers.

(** ** Vocabulary of the statements *)

(** The three answers of a theme added up, an absent answer counting 0. *)
Definition theme_total (answer_vector : gmap string Z) (theme : string) : Z :=
  Py.get answer_vector (theme_qid theme 1) 0
  + Py.get answer_vector (theme_qid theme 2) 0
  + Py.get answer_vector (theme_qid theme 3) 0.

(** A total whose ninth is still a double. *)
Definition ninth_in_range (total : Z) : bool :=
  Z.abs total <? 9 * Py.DBL_OVERFLOW.

Definition profile_in_range (answer_vector : gmap string Z) : bool :=
  forallb (fun theme => ninth_in_range (theme_total answer_vector theme))
          ["ack"; "bp"; "gd"; "rc"].

(** What one item adds to the accumulator of the identifiers [ids]. *)
Definition weight (ids : list string) (item : string * Z) : Z :=
  if qid_in item.1 ids then item.2 else 0.

Definition theme_sum (ids : list string) (l : list (string * Z)) : Z :=
  foldr (fun item acc => weight ids item + acc) 0 l.

(** Option values that fit a signed 64-bit integer, the range in which
    numpy stores them as [int64]. *)
Definition int64_values (answer_vector : gmap string Z) : bool :=
  forallb (fun v => (- 2 ^ 63 <=? v) && (v <? 2 ^ 63)) (Py.values answer_vector).




(** *** The thematic features in the words of the specification *)




(** The mappings agree on every question they share, and the shared
    questions on which they agree. *)
Definition agree_on_shared (vec_a vec_b : gmap string Z) : Prop :=
  forall q, q ∈ dom vec_a -> q ∈ dom vec_b -> vec_a !! q = vec_b !! q.

Definition agreeing (vec_a vec_b : gmap string Z) : list string :=
  filter (fun q => vec_a !! q = vec_b !! q) (elements (dom vec_a ∩ dom vec_b)).

(** Every catalog answer lies on the scale 0..3 of the questionnaire, an
    absent answer counting 0. *)
Definition answers_on_scale (answer_vector : gmap string Z) : bool :=
  forallb (fun q => (0 <=? Py.get answer_vector q 0)
                    && (Py.get answer_vector q 0 <=? 3))
          question_order.

(** The sentence of a dimension, read off its theme total. *)
Definition band_of_total (total : Z) (strong weak : string) : list string :=
  if 7 <=? total then [strong]
  else if total <=? 2 then [weak]
  else [].

Definition middle_band (total : Z) : Prop := 3 <= total <= 6.

(** A store as the handlers keep it: no identifier twice, and every entry
    filed under its own identifier. *)
Definition store_wf (st : Store) : Prop :=
  NoDup (odict_keys (participants st))
  /\ Forall (fun item => stored_id item.2 = item.1) (participants st).

(** [a] comes before [b] in the list. *)
Definition precedes (l : list string) (a b : string) : Prop :=
  exists l1 l2 l3, l = l1 ++ a :: l2 ++ b :: l3.


(** The stores a successful submission leaves behind. *)
Definition stored_after (now : string) (payload : ParticipantSubmission)
    (profile : profile) (features : list R) (st : Store) : Store :=
  let snapshot := new_snapshot now payload profile features in
  {| participants :=
       odict_setitem (participants st) (participant_id payload)
         (new_participant payload profile snapshot);
     profile_snapshots := profile_snapshots st ++ [snapshot] |}.

(** Two submissions and a rounding function to run the handlers on. *)
Definition sample_payload : ParticipantSubmission :=
  {| participant_id := "p1";
     answers := [ Build_Answer "ack_1" 1; Build_Answer "bp_2" 3 ];
     participant_name := None |}.

Definition huge_payload : ParticipantSubmission :=
  {| participant_id := "p2";
     answers := [ Build_Answer "ack_1" (10 ^ 400) ];
     participant_name := Some "" |}.

Definition keep_digits : R -> Z -> R := fun x _ => x.

(** ** Running the model on the scenarios of the specification *)

Definition all_zero : gmap string Z :=
  list_to_map ((fun q => (q, 0%Z)) <$> question_order).

Definition ack_high : gmap string Z :=
  <["ack_1" := 3%Z]> (<["ack_2" := 3%Z]> (<["ack_3" := 3%Z]> all_zero)).

Example truediv_by_zero : Py.truediv 7 0 = Raised ZeroDivisionError.
Proof. reflexivity. Qed.

Example truediv_lowest_terms : Py.truediv 6 9 = Returned (2 # 3)%Q.
Proof. reflexivity. Qed.

Example truediv_last_double :
  Py.truediv (Py.DBL_OVERFLOW - 1) 1 = Returned (inject_Z (Py.DBL_OVERFLOW - 1)).
Proof. vm_compute. reflexivity. Qed.

Example truediv_first_overflow :
  Py.truediv Py.DBL_OVERFLOW 1 = Raised OverflowError.
Proof. vm_compute. reflexivity. Qed.

Example theme_qid_ack : theme_qid "ack" <$> [1; 2; 3]%Z = ["ack_1"; "ack_2"; "ack_3"].
Proof. reflexivity. Qed.

Example scenario4_profile :
  generate_profile {[ "ack_1" := 2%Z ]} =
  Returned (Profile (Dimensions (2 # 9) 0 0 0 0)%Q
    "You may be in a phase where your inner world feels unclear or heavy. Stress may be building up in ways that are hard to manage sustainably. You might be feeling a bit stuck or unsure about your direction right now. There may be opportunities to set gentler boundaries for yourself. You may be craving deeper understanding and safety in relationships.").
Proof. vm_compute. reflexivity. Qed.

Example scenario3_profile_dimensions :
  profile_dimensions <$> generate_profile ack_high
  = Returned (Dimensions 1 0 0 0 0)%Q.
Proof. vm_compute. reflexivity. Qed.

Example exact_ratio_scenario3 : exact_ratio_of ack_high all_zero = Returned (3 # 4)%Q.
Proof. vm_compute. reflexivity. Qed.

Example build_answer_vector_last_wins :
  build_answer_vector [ Build_Answer "ack_1" 1; Build_Answer "bp_1" 2; Build_Answer "ack_1" 3 ]
  = <["ack_1" := 3%Z]> {[ "bp_1" := 2%Z ]}.
Proof. vm_compute. reflexivity. Qed.

(** ** Rationals, reals and the division of Python *)

Lemma Q2R_Qred (q : Q) : Q2R (Qred q) = Q2R q.
Proof. apply Qeq_eqR, Qred_correct. Qed.

Lemma Q2R_zero : Q2R 0 = 0%R.
Proof. unfold Q2R; simpl; lra. Qed.

Lemma Q2R_one : Q2R 1 = 1%R.
Proof. unfold Q2R; simpl; lra. Qed.

Lemma Qle_bool_Rle (p q : Q) : Qle_bool p q = true <-> (Q2R p <= Q2R q)%R.
Proof.
  rewrite Qle_bool_iff. split; [apply Qle_Rle | apply Rle_Qle].
Qed.

Lemma DBL_OVERFLOW_large : 1 < Py.DBL_OVERFLOW.
Proof. now vm_compute. Qed.

(** The quotient of a count by a positive length that bounds it. *)
Lemma truediv_ratio (a b : Z) :
  0 <= a <= b -> 0 < b ->
  Py.truediv a b = Returned (Qred (a # Z.to_pos b)).
Proof.
  intros Ha Hb. unfold Py.truediv.
  destruct (Z.eqb_spec b 0) as [->|_]; [lia|].
  pose proof DBL_OVERFLOW_large as Hd.
  destruct (Z.leb_spec (Py.DBL_OVERFLOW * Z.abs b) (Z.abs a)) as [Hov|_].
  - exfalso. rewrite !Z.abs_eq in Hov by lia. nia.
  - rewrite Z.abs_eq, Z.sgn_pos, Z.mul_1_r by lia. reflexivity.
Qed.

Lemma truediv_same (n : Z) : 0 < n -> Py.truediv n n = Returned 1%Q.
Proof.
  intros Hn. rewrite truediv_ratio by lia. f_equal.
  change 1%Q with (Qred 1). apply Qred_complete.
  unfold Qeq; simpl. rewrite Z2Pos.id by lia. lia.
Qed.

Lemma Q2R_ratio (a b : Z) :
  0 < b -> Q2R (Qred (a # Z.to_pos b)) = (IZR a / IZR b)%R.
Proof.
  intros Hb. rewrite Q2R_Qred. unfold Q2R; simpl. rewrite Z2Pos.id by lia.
  reflexivity.
Qed.

(** Division by [max_score]: a value, unless the quotient leaves the range
    of the doubles. *)
Lemma normalise_score_spec (v : Z) :
  normalise_score v =
  if (9 * Py.DBL_OVERFLOW <=? Z.abs v) then Raised OverflowError
  else Returned (Qred (v # 9)).
Proof.
  unfold normalise_score, Py.truediv, max_score, max_per_question,
    max_questions_per_dim.
  change (3 * 3 =? 0) with false; cbv iota.
  change (3 * 3 =? 0) with false; cbv iota.
  change (Z.abs (3 * 3)) with 9. change (Z.sgn (3 * 3)) with 1.
  change (Z.to_pos 9) with 9%positive.
  rewrite Z.mul_1_r, (Z.mul_comm Py.DBL_OVERFLOW 9). reflexivity.
Qed.

(** ** The accumulators of the profile generator *)

Lemma accumulate_weights (dims : dimensions Z) (item : string * Z) :
  accumulate dims item =
  Dimensions
    (emotional_clarity dims + weight ["ack_1"; "ack_2"; "ack_3"] item)
    (stress_management dims + weight ["bp_1"; "bp_2"; "bp_3"] item)
    (growth_mindset dims + weight ["gd_1"; "gd_2"; "gd_3"] item)
    (boundaries dims + weight ["bp_1"; "bp_2"; "bp_3"] item)
    (relationship_safety dims + weight ["rc_1"; "rc_2"; "rc_3"] item).
Proof.
  destruct dims as [ec sm gm bd rs], item as [qid value].
  unfold accumulate, weight; cbn [fst snd].
  destruct (qid_in qid ["ack_1"; "ack_2"; "ack_3"]),
           (qid_in qid ["bp_1"; "bp_2"; "bp_3"]),
           (qid_in qid ["gd_1"; "gd_2"; "gd_3"]),
           (qid_in qid ["rc_1"; "rc_2"; "rc_3"]);
    cbn; f_equal; lia.
Qed.

Lemma foldl_accumulate (l : list (string * Z)) (dims : dimensions Z) :
  foldl accumulate dims l =
  Dimensions
    (emotional_clarity dims + theme_sum ["ack_1"; "ack_2"; "ack_3"] l)
    (stress_management dims + theme_sum ["bp_1"; "bp_2"; "bp_3"] l)
    (growth_mindset dims + theme_sum ["gd_1"; "gd_2"; "gd_3"] l)
    (boundaries dims + theme_sum ["bp_1"; "bp_2"; "bp_3"] l)
    (relationship_safety dims + theme_sum ["rc_1"; "rc_2"; "rc_3"] l).
Proof.
  revert dims. induction l as [|item l IH]; intros dims.
  - destruct dims; unfold theme_sum.
    cbn [foldl foldr emotional_clarity stress_management growth_mindset
         boundaries relationship_safety].
    f_equal; lia.
  - cbn [foldl]. rewrite IH, accumulate_weights. unfold theme_sum.
    cbn [foldr emotional_clarity stress_management growth_mindset boundaries
         relationship_safety].
    f_equal; lia.
Qed.

Lemma theme_sum_perm (ids : list string) (l l' : list (string * Z)) :
  l ≡ₚ l' -> theme_sum ids l = theme_sum ids l'.
Proof.
  unfold theme_sum.
  induction 1 as [|x l l' _ IH|x y l|l l' l'' _ IH1 _ IH2]; cbn [foldr]; lia.
Qed.

Lemma get_insert_fresh (d : gmap string Z) (i k : string) (x : Z) :
  d !! i = None ->
  Py.get (<[i := x]> d) k 0 = (if decide (i = k) then x else 0) + Py.get d k 0.
Proof.
  intros Hi. unfold Py.get. rewrite lookup_insert.
  destruct (decide (i = k)) as [->|_]; [rewrite Hi|]; simpl; lia.
Qed.

Lemma weight_three (a b c i : string) (x : Z) :
  a <> b -> a <> c -> b <> c ->
  weight [a; b; c] (i, x)
  = (if decide (i = a) then x else 0) + (if decide (i = b) then x else 0)
    + (if decide (i = c) then x else 0).
Proof.
  intros Hab Hac Hbc. unfold weight, qid_in; cbn [fst snd].
  destruct (bool_decide_reflect (i ∈ [a; b; c])) as [Hin|Hin];
    rewrite !elem_of_cons, elem_of_nil in Hin;
    destruct (decide (i = a)) as [Ha|Ha], (decide (i = b)) as [Hb|Hb],
             (decide (i = c)) as [Hc|Hc];
    try congruence; try lia; tauto.
Qed.

(** The loop over the items of the dict adds up exactly the answers stored
    under the three identifiers. *)
Lemma theme_sum_items (a b c : string) (d : gmap string Z) :
  a <> b -> a <> c -> b <> c ->
  theme_sum [a; b; c] (Py.items d)
  = Py.get d a 0 + Py.get d b 0 + Py.get d c 0.
Proof.
  intros Hab Hac Hbc. unfold Py.items.
  induction d as [|i x m Hi IH] using map_ind.
  - rewrite map_to_list_empty. unfold Py.get. rewrite !lookup_empty. reflexivity.
  - rewrite (theme_sum_perm _ _ _ (map_to_list_insert m i x Hi)).
    unfold theme_sum in *. cbn [foldr]. rewrite IH, weight_three by assumption.
    rewrite !get_insert_fresh by assumption. lia.
Qed.

Lemma profile_totals_spec (answer_vector : gmap string Z) :
  profile_totals answer_vector =
  Dimensions (theme_total answer_vector "ack") (theme_total answer_vector "bp")
             (theme_total answer_vector "gd") (theme_total answer_vector "bp")
             (theme_total answer_vector "rc").
Proof.
  unfold profile_totals, theme_total. rewrite foldl_accumulate. cbn.
  f_equal; apply theme_sum_items; discriminate.
Qed.

Lemma ninth_in_range_score (v : Z) :
  ninth_in_range v = true -> normalise_score v = Returned (Qred (v # 9)).
Proof.
  unfold ninth_in_range. intros Hv. rewrite normalise_score_spec.
  apply Z.ltb_lt in Hv.
  destruct (Z.leb_spec (9 * Py.DBL_OVERFLOW) (Z.abs v)); [lia | reflexivity].
Qed.

Lemma ninth_out_of_range_score (v : Z) :
  ninth_in_range v = false -> normalise_score v = Raised OverflowError.
Proof.
  unfold ninth_in_range. intros Hv. rewrite normalise_score_spec.
  apply Z.ltb_ge in Hv.
  destruct (Z.leb_spec (9 * Py.DBL_OVERFLOW) (Z.abs v)); [reflexivity | lia].
Qed.

(** [generate_profile] returns exactly on the mappings whose theme totals
    stay in range, and raises [OverflowError] on the others. *)
Lemma generate_profile_returns (answer_vector : gmap string Z) :
  profile_in_range answer_vector = true ->
  exists summary,
    generate_profile answer_vector =
    Returned (Profile
      (Dimensions (Qred (theme_total answer_vector "ack" # 9))
                  (Qred (theme_total answer_vector "bp" # 9))
                  (Qred (theme_total answer_vector "gd" # 9))
                  (Qred (theme_total answer_vector "bp" # 9))
                  (Qred (theme_total answer_vector "rc" # 9)))
      summary).
Proof.
  unfold profile_in_range; cbn [forallb]. rewrite !andb_true_iff.
  intros (Hack & Hbp & Hgd & Hrc & _).
  unfold generate_profile, normalise. rewrite profile_totals_spec.
  cbn [emotional_clarity stress_management growth_mindset boundaries
       relationship_safety].
  rewrite !ninth_in_range_score by assumption.
  eexists. reflexivity.
Qed.

Lemma generate_profile_raises (answer_vector : gmap string Z) :
  profile_in_range answer_vector = false ->
  generate_profile answer_vector = Raised OverflowError.
Proof.
  unfold profile_in_range; cbn [forallb]. rewrite andb_true_r. intros Hr.
  unfold generate_profile, normalise. rewrite profile_totals_spec.
  cbn [emotional_clarity stress_management growth_mindset boundaries
       relationship_safety].
  destruct (ninth_in_range (theme_total answer_vector "ack")) eqn:Hack;
    [rewrite (ninth_in_range_score _ Hack)
    |rewrite (ninth_out_of_range_score _ Hack); reflexivity].
  destruct (ninth_in_range (theme_total answer_vector "bp")) eqn:Hbp;
    [rewrite (ninth_in_range_score _ Hbp)
    |rewrite (ninth_out_of_range_score _ Hbp); reflexivity].
  destruct (ninth_in_range (theme_total answer_vector "gd")) eqn:Hgd;
    [rewrite (ninth_in_range_score _ Hgd)
    |rewrite (ninth_out_of_range_score _ Hgd); reflexivity].
  destruct (ninth_in_range (theme_total answer_vector "rc")) eqn:Hrc;
    [discriminate Hr|].
  rewrite (ninth_out_of_range_score _ Hrc). reflexivity.
Qed.

(** ** Sums and dot products over the reals *)

Lemma sum_app (x y : list R) : Np.sum (x ++ y) = (Np.sum x + Np.sum y)%R.
Proof.
  unfold Np.sum. induction x as [|a x IH]; cbn [app foldr]; [lra|].
  rewrite IH. lra.
Qed.

Lemma dot_nil_l (y : list R) : Np.dot [] y = 0%R.
Proof. reflexivity. Qed.

Lemma dot_cons (a b : R) (x y : list R) :
  Np.dot (a :: x) (b :: y) = (a * b + Np.dot x y)%R.
Proof. reflexivity. Qed.

Lemma dot_comm (x y : list R) : Np.dot x y = Np.dot y x.
Proof.
  revert y. induction x as [|a x IH]; intros [|b y]; try reflexivity.
  rewrite !dot_cons, IH. lra.
Qed.

Lemma dot_self_nonneg (x : list R) : (0 <= Np.dot x x)%R.
Proof.
  induction x as [|a x IH]; [rewrite dot_nil_l; lra|].
  rewrite dot_cons. nra.
Qed.

Lemma dot_self_app (x y : list R) :
  Np.dot (x ++ y) (x ++ y) = (Np.dot x x + Np.dot y y)%R.
Proof.
  induction x as [|a x IH]; cbn [app]; [rewrite dot_nil_l; lra|].
  rewrite !dot_cons, IH. lra.
Qed.

(** Twice a dot product is at most the sum of the two squared norms. *)
Lemma dot_young (x y : list R) :
  (2 * Np.dot x y <= Np.dot x x + Np.dot y y)%R.
Proof.
  revert y. induction x as [|a x IH]; intros [|b y].
  - rewrite !dot_nil_l. lra.
  - rewrite !dot_nil_l. pose proof (dot_self_nonneg (b :: y)). lra.
  - pose proof (dot_self_nonneg (a :: x)).
    replace (Np.dot (a :: x) []) with 0%R by reflexivity.
    rewrite dot_nil_l. lra.
  - rewrite !dot_cons. specialize (IH y).
    pose proof (Rle_0_sqr (a - b)) as Hsq. unfold Rsqr in Hsq. lra.
Qed.

Lemma dot_scale (x y : list R) (n m : R) :
  Np.dot ((fun v => v / n)%R <$> x) ((fun v => v / m)%R <$> y)
  = (Np.dot x y * (/ n * / m))%R.
Proof.
  revert y. induction x as [|a x IH]; intros [|b y]; cbn [fmap list_fmap];
    try (rewrite ?dot_nil_l; unfold Np.dot; cbn; lra).
  rewrite !dot_cons, IH. unfold Rdiv. lra.
Qed.

Lemma dot_zeros_l (x y : list R) : Np.dot ((fun _ => 0%R) <$> x) y = 0%R.
Proof.
  revert y. induction x as [|a x IH]; intros [|b y]; try reflexivity.
  cbn [fmap list_fmap]. rewrite dot_cons.
  change (list_fmap R R (fun _ => 0%R) x) with ((fun _ => 0%R) <$> x).
  rewrite IH. lra.
Qed.

Lemma norm_nonneg (x : list R) : (0 <= Np.norm x)%R.
Proof. apply sqrt_pos. Qed.

Lemma norm_sqr (x : list R) : (Np.norm x * Np.norm x = Np.dot x x)%R.
Proof. apply sqrt_sqrt, dot_self_nonneg. Qed.

(** A vector divided by its own positive norm has norm 1. *)
Lemma norm_unit (x : list R) :
  (0 < Np.norm x)%R -> Np.norm ((fun v => v / Np.norm x)%R <$> x) = 1%R.
Proof.
  intros Hpos. unfold Np.norm at 1. rewrite dot_scale, <- norm_sqr.
  replace (Np.norm x * Np.norm x * (/ Np.norm x * / Np.norm x))%R with 1%R
    by (field; lra).
  apply sqrt_1.
Qed.

Lemma norm_zeros (x : list R) : Np.norm ((fun _ => 0%R) <$> x) = 0%R.
Proof. unfold Np.norm. rewrite dot_zeros_l. apply sqrt_0. Qed.

(** ** The feature encoder *)

Lemma values_nil_iff (d : gmap string Z) : Py.values d = [] <-> d = ∅.
Proof.
  unfold Py.values. rewrite <- map_to_list_empty_iff.
  destruct (map_to_list d); cbn; split; congruence.
Qed.

Lemma filter_length_le {A : Type} (p : A -> bool) (l : list A) :
  (length (List.filter p l) <= length l)%nat.
Proof. induction l as [|a l IH]; cbn; [lia|]. destruct (p a); cbn; lia. Qed.

(** Every integer is at least 2 or at most 1, and not both. *)
Lemma high_low_partition (l : list Z) :
  (length (List.filter (fun v => (2 <=? v)%Z) l)
   + length (List.filter (fun v => (v <=? 1)%Z) l) = length l)%nat.
Proof.
  induction l as [|v l IH]; cbn; [reflexivity|].
  destruct (Z.leb_spec 2 v), (Z.leb_spec v 1); cbn; lia.
Qed.

Lemma intensity_ratio_nonempty (p : Z -> bool) (v : Z) (l : list Z) :
  intensity_ratio p (v :: l)
  = Returned (Qred (Py.len (List.filter p (v :: l))
                    # Z.to_pos (Py.len (v :: l)))).
Proof.
  unfold intensity_ratio. cbn [Py.truthy]. apply truediv_ratio.
  - pose proof (filter_length_le p (v :: l)). unfold Py.len. lia.
  - unfold Py.len. cbn [length]. lia.
Qed.

Lemma Q2R_intensity (p : Z -> bool) (v : Z) (l : list Z) :
  Q2R (Qred (Py.len (List.filter p (v :: l)) # Z.to_pos (Py.len (v :: l))))
  = (INR (length (List.filter p (v :: l))) / INR (length (v :: l)))%R.
Proof.
  rewrite Q2R_ratio by (unfold Py.len; cbn [length]; lia).
  unfold Py.len. rewrite <- !INR_IZR_INZ. reflexivity.
Qed.

(** The six pattern features: always a value; on a non-empty mapping the
    two intensity ratios add up to one, on the empty one all six are 0. *)
Lemma pattern_features_returned (answer_vector : gmap string Z) :
  exists m s p l hi lo : R,
    pattern_features answer_vector = Returned [m; s; p; l; hi; lo]
    /\ (answer_vector <> ∅ -> (hi + lo = 1)%R)
    /\ (answer_vector = ∅ -> [m; s; p; l; hi; lo] = replicate 6 0%R).
Proof.
  unfold pattern_features.
  destruct (Py.values answer_vector) as [|v vs] eqn:Hvals.
  - apply values_nil_iff in Hvals.
    exists 0%R, 0%R, 0%R, 0%R, 0%R, 0%R. cbn. rewrite Q2R_zero.
    split; [reflexivity|]. split; [congruence | reflexivity].
  - assert (answer_vector <> ∅) as Hne
        by (intros Hempty%values_nil_iff; congruence).
    rewrite !intensity_ratio_nonempty.
    cbn [Py.truthy Np.max Np.min fmap outcome_fmap mbind outcome_bind mret
         outcome_ret].
    do 6 eexists. split; [reflexivity|]. split; [|congruence].
    intros _. rewrite !Q2R_intensity.
    pose proof (high_low_partition (v :: vs)) as Hpart.
    apply (f_equal INR) in Hpart. rewrite plus_INR in Hpart.
    assert (0 < INR (length (v :: vs)))%R
      by (apply lt_0_INR; cbn [length]; lia).
    field_simplify_eq; [lra | lra].
Qed.

Lemma mean_three (a b c : Z) :
  mean_or_zero [a; b; c] = ((IZR a + IZR b + IZR c) / 3)%R.
Proof.
  unfold mean_or_zero, Np.mean, Np.sum. cbn [Py.truthy fmap list_fmap foldr length].
  simpl INR. field.
Qed.

Lemma safe_std_three (a b c : Z) :
  safe_std [a; b; c]
  = let m := ((IZR a + IZR b + IZR c) / 3)%R in
    sqrt (((IZR a - m) * (IZR a - m) + (IZR b - m) * (IZR b - m)
           + (IZR c - m) * (IZR c - m)) / 3).
Proof.
  unfold safe_std. change (Py.len [a; b; c] <=? 1) with false.
  unfold Np.isnan, Np.std, Np.mean, Np.sum.
  cbn [fmap list_fmap foldr length]. simpl INR. cbv zeta.
  f_equal. field.
Qed.

Lemma thematic_features_empty : thematic_features ∅ = replicate 8 0%R.
Proof.
  unfold thematic_features.
  change (theme_values ∅ "ack") with [0; 0; 0].
  change (theme_values ∅ "bp") with [0; 0; 0].
  change (theme_values ∅ "gd") with [0; 0; 0].
  change (theme_values ∅ "rc") with [0; 0; 0].
  rewrite mean_three, safe_std_three. cbv zeta.
  replace ((0 + 0 + 0) / 3)%R with 0%R by lra.
  replace (((0 - 0) * (0 - 0) + (0 - 0) * (0 - 0) + (0 - 0) * (0 - 0)) / 3)%R
    with 0%R by lra.
  rewrite sqrt_0. reflexivity.
Qed.

Lemma thematic_features_length (answer_vector : gmap string Z) :
  length (thematic_features answer_vector) = 8%nat.
Proof. reflexivity. Qed.

Lemma base_features_length (answer_vector : gmap string Z) :
  length (base_features answer_vector) = 12%nat.
Proof. reflexivity. Qed.

(** The array before normalisation: 26 entries; squared norm at least 1/2
    on a non-empty mapping, all zero on the empty one. *)
Lemma raw_feature_vector_returned (answer_vector : gmap string Z) :
  exists raw : list R,
    raw_feature_vector answer_vector = Returned raw
    /\ length raw = 26%nat
    /\ (answer_vector <> ∅ -> (1 / 2 <= Np.dot raw raw)%R)
    /\ (answer_vector = ∅ -> raw = replicate 26 0%R).
Proof.
  unfold raw_feature_vector.
  destruct (pattern_features_returned answer_vector)
    as (m & s & p & l & hi & lo & -> & Hsum & Hzero).
  cbn [mbind outcome_bind mret outcome_ret].
  eexists. split; [reflexivity|]. split; [|split].
  - rewrite !length_app, length_fmap, base_features_length,
      thematic_features_length. reflexivity.
  - intros Hne. specialize (Hsum Hne). rewrite !dot_self_app.
    pose proof (dot_self_nonneg (IZR <$> base_features answer_vector)).
    pose proof (dot_self_nonneg (thematic_features answer_vector)).
    rewrite !dot_cons, dot_nil_l.
    assert (lo = 1 - hi)%R as -> by lra.
    pose proof (Rle_0_sqr m) as Hm. pose proof (Rle_0_sqr s) as Hs.
    pose proof (Rle_0_sqr p) as Hp. pose proof (Rle_0_sqr l) as Hl.
    pose proof (Rle_0_sqr (2 * hi - 1)) as Hhi.
    unfold Rsqr in Hm, Hs, Hp, Hl, Hhi. lra.
  - intros ->. rewrite (Hzero eq_refl), thematic_features_empty. reflexivity.
Qed.

(** The encoder always returns 26 numbers: of norm one on a non-empty
    mapping, all zero on the empty one. *)
Lemma build_ai_feature_vector_returned (answer_vector : gmap string Z) :
  exists fv : list R,
    build_ai_feature_vector answer_vector = Returned fv
    /\ length fv = 26%nat
    /\ (answer_vector <> ∅ -> Np.norm fv = 1%R)
    /\ (answer_vector = ∅ -> fv = replicate 26 0%R).
Proof.
  unfold build_ai_feature_vector.
  destruct (raw_feature_vector_returned answer_vector)
    as (raw & -> & Hlen & Hbig & Hzero).
  cbn [mbind outcome_bind mret outcome_ret].
  destruct (decide (answer_vector = ∅)) as [Hempty|Hne].
  - rewrite (Hzero Hempty).
    assert (Np.norm (replicate 26 0%R) = 0%R) as Hnorm.
    { apply (norm_zeros (replicate 26 0%R)). }
    rewrite Hnorm. destruct (Rlt_dec 1e-10 0) as [Hlt|_]; [lra|].
    eexists. split; [reflexivity|]. split; [reflexivity|].
    split; [congruence | reflexivity].
  - specialize (Hbig Hne).
    pose proof (norm_nonneg raw) as Hpos. pose proof (norm_sqr raw) as Hsqr.
    destruct (Rlt_dec 1e-10 (Np.norm raw)) as [Hlt|Hge]; [|exfalso; nra].
    eexists. split; [reflexivity|]. split; [|split].
    + rewrite length_fmap. exact Hlen.
    + intros _. apply norm_unit. lra.
    + congruence.
Qed.

(** ** The exact-match ratio *)

Lemma getitem_dom (d : gmap string Z) (q : string) :
  q ∈ dom d -> exists v, Py.getitem d q = Returned v.
Proof.
  intros [v Hv]%elem_of_dom. exists v. unfold Py.getitem. rewrite Hv. reflexivity.
Qed.

Lemma count_exact_matches_returned (vec_a vec_b : gmap string Z) (l : list string) :
  (forall q, q ∈ l -> q ∈ dom vec_a /\ q ∈ dom vec_b) ->
  exists n, count_exact_matches vec_a vec_b l = Returned n /\ 0 <= n <= Py.len l.
Proof.
  unfold Py.len. induction l as [|q l IH]; intros Hdom.
  - exists 0. split; [reflexivity | cbn; lia].
  - destruct IH as (n & Hn & Hbound).
    { intros q' Hq'. apply Hdom. right. exact Hq'. }
    destruct (Hdom q) as [Ha Hb]; [left|].
    destruct (getitem_dom _ _ Ha) as [a Hga], (getitem_dom _ _ Hb) as [b Hgb].
    cbn [count_exact_matches foldr]. fold (count_exact_matches vec_a vec_b l).
    rewrite Hga, Hgb, Hn. cbn [mbind outcome_bind mret outcome_ret].
    eexists. split; [reflexivity|].
    cbn [length]. destruct (a =? b); lia.
Qed.

Lemma count_exact_matches_sym (vec_a vec_b : gmap string Z) (l : list string) :
  count_exact_matches vec_a vec_b l = count_exact_matches vec_b vec_a l.
Proof.
  induction l as [|q l IH]; [reflexivity|].
  cbn [count_exact_matches foldr].
  fold (count_exact_matches vec_a vec_b l). fold (count_exact_matches vec_b vec_a l).
  rewrite IH. unfold Py.getitem.
  destruct (vec_a !! q) as [a|], (vec_b !! q) as [b|];
    cbn [mbind outcome_bind]; try reflexivity.
  rewrite (Z.eqb_sym a b). reflexivity.
Qed.

Lemma count_exact_matches_self (vec : gmap string Z) (l : list string) :
  (forall q, q ∈ l -> q ∈ dom vec) ->
  count_exact_matches vec vec l = Returned (Py.len l).
Proof.
  unfold Py.len. induction l as [|q l IH]; intros Hdom; [reflexivity|].
  destruct (getitem_dom vec q) as [a Hga]; [apply Hdom; left|].
  cbn [count_exact_matches foldr]. fold (count_exact_matches vec vec l).
  rewrite Hga, IH by (intros q' Hq'; apply Hdom; right; exact Hq').
  cbn [mbind outcome_bind mret outcome_ret]. rewrite Z.eqb_refl.
  f_equal. cbn [length]. lia.
Qed.

Lemma size_elements (X : gset string) : size X = length (elements X).
Proof. reflexivity. Qed.

Lemma size_pos (X : gset string) : X <> ∅ -> 0 < Z.of_nat (size X).
Proof.
  intros HX. assert (size X <> 0%nat) as Hsize.
  { intros Hz%size_empty_iff. apply HX. apply leibniz_equiv. exact Hz. }
  lia.
Qed.

Lemma Qred_ratio_bounds (n m : Z) :
  0 <= n <= m -> 0 < m ->
  (0 <= Qred (n # Z.to_pos m) <= 1)%Q.
Proof.
  intros Hn Hm. rewrite !Qred_correct. unfold Qle; cbn.
  rewrite Z2Pos.id by lia. lia.
Qed.

(** The ratio is always a value between 0 and 1: the division is guarded
    by the test that a question is shared. *)
Lemma exact_ratio_of_returned (vec_a vec_b : gmap string Z) :
  exists er : Q,
    exact_ratio_of vec_a vec_b = Returned er /\ (0 <= er <= 1)%Q.
Proof.
  unfold exact_ratio_of. case_bool_decide as Hshared.
  - destruct (count_exact_matches_returned vec_a vec_b
                (elements (dom vec_a ∩ dom vec_b))) as (n & -> & Hn).
    { intros q Hq. apply elem_of_elements in Hq. set_solver. }
    cbn [mbind outcome_bind]. pose proof (size_pos _ Hshared) as Hpos.
    unfold Py.len in Hn. rewrite <- size_elements in Hn.
    rewrite truediv_ratio by lia.
    eexists. split; [reflexivity|]. apply Qred_ratio_bounds; lia.
  - exists 0%Q. split; [reflexivity|]. unfold Qle; cbn; lia.
Qed.

Lemma exact_ratio_of_sym (vec_a vec_b : gmap string Z) :
  exact_ratio_of vec_a vec_b = exact_ratio_of vec_b vec_a.
Proof.
  unfold exact_ratio_of.
  rewrite (comm_L (∩) (dom vec_b) (dom vec_a)).
  rewrite count_exact_matches_sym. reflexivity.
Qed.

Lemma exact_ratio_of_self (vec : gmap string Z) :
  vec <> ∅ -> exact_ratio_of vec vec = Returned 1%Q.
Proof.
  intros Hne. unfold exact_ratio_of.
  rewrite (idemp_L (∩) (dom vec)).
  assert (dom vec <> (∅ : gset string)) as Hdom
      by (intros Hd%dom_empty_inv_L; contradiction).
  rewrite bool_decide_eq_true_2 by exact Hdom.
  rewrite count_exact_matches_self
    by (intros q Hq; apply elem_of_elements in Hq; exact Hq).
  cbn [mbind outcome_bind]. unfold Py.len. rewrite <- size_elements.
  apply truediv_same, size_pos, Hdom.
Qed.

Lemma exact_ratio_of_disjoint (vec_a vec_b : gmap string Z) :
  dom vec_a ∩ dom vec_b = ∅ -> exact_ratio_of vec_a vec_b = Returned 0%Q.
Proof.
  intros Hd. unfold exact_ratio_of. rewrite Hd.
  rewrite bool_decide_eq_false_2 by (intros H; apply H; reflexivity).
  reflexivity.
Qed.

(** ** The cosine of scikit-learn *)

Lemma eps_bounds : (0 < 10 * Np.eps < 1)%R.
Proof.
  unfold Np.eps.
  assert (2 ^ 52 = IZR (2 ^ 52))%R as -> by exact (pow_IZR 2 52).
  assert (10 < IZR (2 ^ 52))%R as Hbig by (apply IZR_lt; reflexivity).
  assert (0 < / IZR (2 ^ 52))%R as Hinv by (apply Rinv_0_lt_compat; lra).
  split; [lra|].
  apply (Rmult_lt_reg_r (IZR (2 ^ 52))); [lra|].
  rewrite Rmult_assoc, Rinv_l by lra. lra.
Qed.

Lemma cosine_sym (x y : list R) :
  Np.cosine_similarity x y = Np.cosine_similarity y x.
Proof. unfold Np.cosine_similarity. apply dot_comm. Qed.

(** A row normalised by scikit-learn has squared norm at most 1. *)
Lemma normalize_dot_le (x : list R) :
  (Np.dot (Np.normalize x) (Np.normalize x) <= 1)%R.
Proof.
  unfold Np.normalize. pose proof eps_bounds as Heps.
  pose proof (norm_nonneg x) as Hpos. pose proof (norm_sqr x) as Hsqr.
  rewrite dot_scale.
  destruct (Rlt_dec (Np.norm x) (10 * Np.eps)) as [Hsmall|Hbig].
  - rewrite Rinv_1, <- Hsqr. nra.
  - rewrite <- Hsqr. apply Req_le. field. lra.
Qed.

Lemma cosine_le_1 (x y : list R) : (Np.cosine_similarity x y <= 1)%R.
Proof.
  unfold Np.cosine_similarity.
  pose proof (dot_young (Np.normalize x) (Np.normalize y)).
  pose proof (normalize_dot_le x). pose proof (normalize_dot_le y). lra.
Qed.

Lemma dot_replicate_zero (n : nat) (y : list R) :
  Np.dot (replicate n 0%R) y = 0%R.
Proof.
  revert y. induction n as [|n IH]; intros [|b y]; try reflexivity.
  cbn [replicate]. rewrite dot_cons, IH. lra.
Qed.

Lemma cosine_zeros_l (n : nat) (y : list R) :
  Np.cosine_similarity (replicate n 0%R) y = 0%R.
Proof.
  unfold Np.cosine_similarity, Np.normalize at 1.
  rewrite fmap_replicate.
  replace (0 / _)%R with 0%R by (unfold Rdiv; lra).
  apply dot_replicate_zero.
Qed.

Lemma cosine_zeros_r (n : nat) (x : list R) :
  Np.cosine_similarity x (replicate n 0%R) = 0%R.
Proof. rewrite cosine_sym. apply cosine_zeros_l. Qed.

(** ** The similarity score *)

Lemma clamp01_bounds (x : R) : (0 <= Py.clamp01 x <= 1)%R.
Proof.
  unfold Py.clamp01, Rmax, Rmin.
  destruct (Rle_dec 1 x), (Rle_dec 0 1), (Rle_dec 0 x); lra.
Qed.


Lemma existsb_isnan (l : list R) : existsb Np.isnan l = false.
Proof. induction l as [|x l IH]; [reflexivity | exact IH]. Qed.

Lemma ai_similarity_of_sym (fa fb : list R) (er : Q) :
  ai_similarity_of fa fb er = ai_similarity_of fb fa er.
Proof. unfold ai_similarity_of. rewrite (cosine_sym fa fb). reflexivity. Qed.

Lemma ai_similarity_of_bounds (fa fb : list R) (er : Q) :
  (0 <= er <= 1)%Q -> (0 <= ai_similarity_of fa fb er <= 1)%R.
Proof.
  intros [H0 H1]. apply Qle_Rle in H0, H1. rewrite Q2R_zero in H0.
  rewrite Q2R_one in H1. unfold ai_similarity_of, Np.isnan.
  pose proof (cosine_le_1 fa fb).
  destruct (Rlt_dec (Np.cosine_similarity fa fb) 0); lra.
Qed.

Lemma ai_block_returned (vec_a vec_b : gmap string Z) (er : Q) (fa fb : list R) :
  build_ai_feature_vector vec_a = Returned fa ->
  build_ai_feature_vector vec_b = Returned fb ->
  ai_block_with build_ai_feature_vector vec_a vec_b er
  = Returned (Continue (ai_similarity_of fa fb er)).
Proof.
  intros Ha Hb. unfold ai_block_with. rewrite Ha, Hb.
  cbn [mbind outcome_bind]. rewrite !existsb_isnan. reflexivity.
Qed.

(** The score, once the ratio and the two encodings are known. *)
Lemma compute_similarity_eval (vec_a vec_b : gmap string Z) (er : Q)
    (fa fb : list R) :
  exact_ratio_of vec_a vec_b = Returned er ->
  build_ai_feature_vector vec_a = Returned fa ->
  build_ai_feature_vector vec_b = Returned fb ->
  compute_similarity vec_a vec_b =
  if bool_decide (vec_a = ∅) || bool_decide (vec_b = ∅) then Returned 0%R
  else if bool_decide (dom vec_a ∩ dom vec_b ≠ (∅ : gset string)) && Qle_bool 1 er
       then Returned 1%R
       else Returned (Py.clamp01
                        (combined_similarity er (ai_similarity_of fa fb er))).
Proof.
  intros Her Ha Hb. unfold compute_similarity, compute_similarity_with.
  rewrite Her. cbn [mbind outcome_bind].
  rewrite (ai_block_returned _ _ er _ _ Ha Hb).
  cbn [mbind outcome_bind mret outcome_ret try_except]. reflexivity.
Qed.

(** ** Self-similarity *)

(** C1, as the specification words it, fails on the empty mapping: the
    guard of line 125 answers 0.0 before any comparison is made. *)
Lemma self_similarity_empty_counterexample :
  compute_similarity ∅ ∅ = Returned 0%R
  /\ compute_similarity ∅ ∅ <> Returned 1%R.
Proof.
  assert (compute_similarity ∅ ∅ = Returned 0%R) as Hzero.
  { unfold compute_similarity, compute_similarity_with.
    rewrite bool_decide_eq_true_2 by reflexivity. reflexivity. }
  split; [exact Hzero|]. rewrite Hzero. intros Heq.
  injection Heq as Heq. lra.
Qed.

(** C1 (amended): for every non-empty answer mapping [vec],
    [compute_similarity vec vec] returns exactly 1.0; on the empty mapping
    it returns 0.0. *)
Theorem self_similarity (vec : gmap string Z) :
  (vec <> ∅ -> compute_similarity vec vec = Returned 1%R)
  /\ (vec = ∅ -> compute_similarity vec vec = Returned 0%R).
Proof.
  split.
  - intros Hne.
    destruct (build_ai_feature_vector_returned vec) as (fv & Hfv & _).
    rewrite (compute_similarity_eval vec vec 1 fv fv (exact_ratio_of_self vec Hne) Hfv Hfv).
    rewrite (bool_decide_eq_false_2 (vec = ∅)) by exact Hne.
    rewrite (idemp_L (∩) (dom vec)).
    rewrite bool_decide_eq_true_2
      by (intros Hd%dom_empty_inv_L; contradiction).
    reflexivity.
  - intros ->. unfold compute_similarity, compute_similarity_with.
    rewrite bool_decide_eq_true_2 by reflexivity. reflexivity.
Qed.

Lemma self_similarity_witness :
  compute_similarity {[ "ack_1" := 2 ]} {[ "ack_1" := 2 ]} = Returned 1%R.
Proof.
  apply (self_similarity {[ "ack_1" := 2 ]}).
  intros Hempty. apply (f_equal (fun d => d !! "ack_1")) in Hempty.
  vm_compute in Hempty. discriminate Hempty.
Defined.

(** ** The encoding of the all-zero questionnaire *)

Lemma sum_zeros (n : nat) : Np.sum (IZR <$> replicate n 0) = 0%R.
Proof.
  induction n as [|n IH]; [reflexivity|].
  cbn [replicate fmap list_fmap]. unfold Np.sum in *. cbn [foldr].
  change (list_fmap Z R IZR (replicate n 0)) with (IZR <$> replicate n 0).
  rewrite IH. lra.
Qed.

Lemma mean_zeros (n : nat) : Np.mean (replicate n 0) = 0%R.
Proof. unfold Np.mean. rewrite sum_zeros. unfold Rdiv. lra. Qed.

Lemma std_zeros (n : nat) : Np.std (replicate n 0) = 0%R.
Proof.
  unfold Np.std. rewrite mean_zeros. cbv zeta.
  assert (Np.sum ((fun x => (IZR x - 0) * (IZR x - 0))%R <$> replicate n 0) = 0%R)
    as ->.
  { generalize n at 1. intros k. induction k as [|k IH]; [reflexivity|].
    cbn [replicate fmap list_fmap]. unfold Np.sum in *. cbn [foldr].
    change (list_fmap Z R (fun x => (IZR x - 0) * (IZR x - 0))%R (replicate k 0))
      with ((fun x => (IZR x - 0) * (IZR x - 0))%R <$> replicate k 0).
    rewrite IH. lra. }
  unfold Rdiv. rewrite Rmult_0_l. apply sqrt_0.
Qed.

Lemma mean_or_zero_zeros (n : nat) : mean_or_zero (replicate n 0) = 0%R.
Proof.
  unfold mean_or_zero. destruct (Py.truthy (replicate n 0)); [|reflexivity].
  apply mean_zeros.
Qed.

Lemma safe_std_zeros (n : nat) : safe_std (replicate n 0) = 0%R.
Proof.
  unfold safe_std, Np.isnan.
  destruct (Py.len (replicate n 0) <=? 1); [reflexivity|]. apply std_zeros.
Qed.

Lemma all_zero_values : Py.values all_zero = replicate 12 0.
Proof. now vm_compute. Qed.

Lemma all_zero_nonempty : all_zero <> ∅.
Proof.
  intros Hempty. apply (f_equal (fun d => d !! "ack_1")) in Hempty.
  vm_compute in Hempty. discriminate Hempty.
Qed.

Lemma pattern_features_all_zero :
  pattern_features all_zero = Returned [0; 0; 0; 0; 0; 1]%R.
Proof.
  unfold pattern_features. rewrite all_zero_values.
  rewrite mean_or_zero_zeros, safe_std_zeros.
  cbn [replicate]. rewrite !intensity_ratio_nonempty.
  cbn [Py.truthy Np.max Np.min fmap outcome_fmap mbind outcome_bind mret
       outcome_ret].
  rewrite !Q2R_intensity.
  set (peak := foldl Z.max _ _). vm_compute in peak. subst peak.
  set (low := foldl Z.min _ _). vm_compute in low. subst low.
  cbn [List.filter Z.leb Z.compare length]. simpl INR.
  unfold mret, outcome_ret. apply f_equal.
  repeat (apply f_equal2; [try reflexivity; lra|]). reflexivity.
Qed.

Lemma raw_feature_vector_all_zero :
  raw_feature_vector all_zero = Returned (replicate 25 0%R ++ [1%R]).
Proof.
  unfold raw_feature_vector. rewrite pattern_features_all_zero.
  cbn [mbind outcome_bind mret outcome_ret]. f_equal.
  change (base_features all_zero) with (replicate 12 0).
  unfold thematic_features.
  change (theme_values all_zero "ack") with (replicate 3 0).
  change (theme_values all_zero "bp") with (replicate 3 0).
  change (theme_values all_zero "gd") with (replicate 3 0).
  change (theme_values all_zero "rc") with (replicate 3 0).
  rewrite mean_or_zero_zeros, safe_std_zeros. reflexivity.
Qed.

Lemma norm_all_zero_raw : Np.norm (replicate 25 0%R ++ [1%R]) = 1%R.
Proof.
  unfold Np.norm. rewrite dot_self_app, dot_replicate_zero, dot_cons, dot_nil_l.
  replace (0 + (1 * 1 + 0))%R with 1%R by lra. apply sqrt_1.
Qed.

(** C2 (the code at the failing input): on the questionnaire answered 0
    throughout, the encoder does not return the zero vector. The raw array
    ends in the low-intensity ratio 12/12 = 1.0, its norm is 1, and the
    returned vector is the unit vector along that last feature. *)
Theorem encode_all_zero_is_unit :
  build_ai_feature_vector all_zero = Returned (replicate 25 0%R ++ [1%R])
  /\ Np.norm (replicate 25 0%R ++ [1%R]) = 1%R
  /\ (forall q, q ∈ question_order -> all_zero !! q = Some 0).
Proof.
  split; [|split; [exact norm_all_zero_raw|]].
  - unfold build_ai_feature_vector. rewrite raw_feature_vector_all_zero.
    cbn [mbind outcome_bind]. rewrite norm_all_zero_raw.
    destruct (Rlt_dec 1e-10 1) as [_|Hn]; [|exfalso; lra].
    unfold mret, outcome_ret. f_equal.
    rewrite fmap_app, fmap_replicate. cbn [fmap list_fmap].
    replace (0 / 1)%R with 0%R by lra. replace (1 / 1)%R with 1%R by lra.
    reflexivity.
  - intros q Hq. unfold question_order in Hq.
    repeat (apply elem_of_cons in Hq as [->|Hq]; [now vm_compute|]).
    apply elem_of_nil in Hq. contradiction.
Qed.

(** ** Symmetry and range of the score *)

(** C3: [compute_similarity] is symmetric in its two answer mappings. *)
Theorem compute_similarity_symmetric (vec_a vec_b : gmap string Z) :
  compute_similarity vec_a vec_b = compute_similarity vec_b vec_a.
Proof.
  destruct (exact_ratio_of_returned vec_a vec_b) as (er & Her & _).
  destruct (build_ai_feature_vector_returned vec_a) as (fa & Ha & _).
  destruct (build_ai_feature_vector_returned vec_b) as (fb & Hb & _).
  rewrite (compute_similarity_eval vec_a vec_b er fa fb Her Ha Hb).
  rewrite exact_ratio_of_sym in Her.
  rewrite (compute_similarity_eval vec_b vec_a er fb fa Her Hb Ha).
  rewrite (orb_comm (bool_decide (vec_b = ∅))).
  rewrite (comm_L (∩) (dom vec_b) (dom vec_a)).
  rewrite (ai_similarity_of_sym fb fa). reflexivity.
Qed.

(** C4: for every pair of answer mappings, whatever the integers they
    hold, [compute_similarity] returns a number of the interval [0, 1]. *)
Theorem compute_similarity_range (vec_a vec_b : gmap string Z) :
  exists score : R,
    compute_similarity vec_a vec_b = Returned score /\ (0 <= score <= 1)%R.
Proof.
  destruct (exact_ratio_of_returned vec_a vec_b) as (er & Her & _).
  destruct (build_ai_feature_vector_returned vec_a) as (fa & Ha & _).
  destruct (build_ai_feature_vector_returned vec_b) as (fb & Hb & _).
  rewrite (compute_similarity_eval vec_a vec_b er fa fb Her Ha Hb).
  destruct (bool_decide (vec_a = ∅) || bool_decide (vec_b = ∅)).
  - exists 0%R. split; [reflexivity | lra].
  - destruct (bool_decide (dom vec_a ∩ dom vec_b ≠ ∅) && Qle_bool 1 er).
    + exists 1%R. split; [reflexivity | lra].
    + eexists. split; [reflexivity | apply clamp01_bounds].
Qed.

(** Whatever the encoder does, raise or return any two arrays, the scorer
    returns a number of [0, 1]: a failure inside the [try] block is
    answered by the exact-match ratio. *)
Lemma compute_similarity_with_range
    (encode : gmap string Z -> outcome (list R)) (vec_a vec_b : gmap string Z) :
  exists score : R,
    compute_similarity_with encode vec_a vec_b = Returned score
    /\ (0 <= score <= 1)%R.
Proof.
  destruct (exact_ratio_of_returned vec_a vec_b) as (er & Her & Her0 & Her1).
  apply Qle_Rle in Her0, Her1. rewrite Q2R_zero in Her0. rewrite Q2R_one in Her1.
  unfold compute_similarity_with. rewrite Her. cbn [mbind outcome_bind].
  destruct (bool_decide (vec_a = ∅) || bool_decide (vec_b = ∅)).
  { exists 0%R. split; [reflexivity | lra]. }
  destruct (bool_decide (dom vec_a ∩ dom vec_b ≠ ∅) && Qle_bool 1 er).
  { exists 1%R. split; [reflexivity | lra]. }
  unfold ai_block_with.
  destruct (encode vec_a) as [fa|ea]; cbn [mbind outcome_bind try_except].
  2: { exists (Q2R er). split; [reflexivity | lra]. }
  destruct (encode vec_b) as [fb|eb]; cbn [mbind outcome_bind try_except].
  2: { exists (Q2R er). split; [reflexivity | lra]. }
  rewrite !existsb_isnan. cbn [orb mret outcome_ret try_except mbind outcome_bind].
  eexists. split; [reflexivity | apply clamp01_bounds].
Qed.

Lemma compute_similarity_encoder_failure
    (encode : gmap string Z -> outcome (list R)) (vec_a vec_b : gmap string Z)
    (e : exn) (er : Q) :
  encode vec_a = Raised e \/ encode vec_b = Raised e ->
  vec_a <> ∅ -> vec_b <> ∅ ->
  exact_ratio_of vec_a vec_b = Returned er -> ~ (er == 1)%Q ->
  compute_similarity_with encode vec_a vec_b = Returned (Q2R er).
Proof.
  intros Hfail Ha Hb Her Hne1.
  unfold compute_similarity_with. rewrite Her. cbn [mbind outcome_bind].
  rewrite (bool_decide_eq_false_2 _ Ha), (bool_decide_eq_false_2 _ Hb).
  cbn [orb].
  destruct (exact_ratio_of_returned vec_a vec_b) as (er' & Her' & _ & Hle).
  rewrite Her in Her'. injection Her' as <-.
  assert (Qle_bool 1 er = false) as ->.
  { destruct (Qle_bool 1 er) eqn:Hq; [|reflexivity].
    apply Qle_bool_iff in Hq. exfalso. apply Hne1. apply Qle_antisym; assumption. }
  rewrite andb_false_r. unfold ai_block_with.
  destruct Hfail as [Hfail|Hfail].
  - rewrite Hfail. reflexivity.
  - rewrite Hfail. destruct (encode vec_a); reflexivity.
Qed.

(** ** The blend *)

Lemma Q2R_nine_tenths : Q2R (9 # 10) = 0.9%R.
Proof. unfold Q2R; simpl. lra. Qed.

Lemma combined_similarity_formula (er : Q) (ai : R) :
  combined_similarity er ai =
  if Rle_dec 0.9 (Q2R er) then (0.6 * Q2R er + 0.4 * ai)%R
  else (0.6 * ai + 0.4 * Q2R er)%R.
Proof.
  unfold combined_similarity. pose proof Q2R_nine_tenths as Hnine.
  destruct (Qle_bool (9 # 10) er) eqn:Hq, (Rle_dec 0.9 (Q2R er)) as [Hr|Hr];
    try lra.
  - exfalso. pose proof (proj1 (Qle_bool_Rle _ _) Hq). lra.
  - exfalso. assert (Qle_bool (9 # 10) er = true) as Hq'
        by (apply Qle_bool_Rle; lra).
    congruence.
Qed.



(** ** Mappings without a common question *)





(** ** The dimension scores *)

Lemma theme_total_insert_outside (answer_vector : gmap string Z) (q theme : string)
    (v : Z) :
  q ∉ question_order -> theme ∈ ["ack"; "bp"; "gd"; "rc"] ->
  theme_total (<[q := v]> answer_vector) theme = theme_total answer_vector theme.
Proof.
  intros Hq Htheme. unfold theme_total, Py.get.
  assert (forall i, i ∈ [1; 2; 3] -> theme_qid theme i ∈ question_order) as Hin.
  { intros i Hi. rewrite !elem_of_cons, elem_of_nil in Htheme.
    rewrite !elem_of_cons, elem_of_nil in Hi.
    destruct Htheme as [->|[->|[->|[->|[]]]]], Hi as [->|[->|[->|[]]]];
      apply (bool_decide_unpack _); vm_compute; exact I. }
  rewrite !lookup_insert_ne; [reflexivity| | |];
    intros ->; apply Hq, Hin; rewrite !elem_of_cons; tauto.
Qed.

(** C7: for every answer mapping, the five scores that [generate_profile]
    returns are the theme totals divided by 9: the acknowledgement answers
    feed emotional_clarity, the boundaries/priorities answers feed both
    boundaries and stress_management, growth/direction feeds growth_mindset
    and relationships/communication feeds relationship_safety. It does
    return them whenever the ninth of every total is within the doubles, as
    it is for all small option values. The totals read the twelve catalog
    identifiers only, so an identifier outside the catalog changes
    nothing. *)
Theorem generate_profile_scores (answer_vector : gmap string Z) :
  (forall p : profile,
     generate_profile answer_vector = Returned p ->
     (emotional_clarity (profile_dimensions p)
      == inject_Z (theme_total answer_vector "ack") / 9)%Q
     /\ (stress_management (profile_dimensions p)
         == inject_Z (theme_total answer_vector "bp") / 9)%Q
     /\ (growth_mindset (profile_dimensions p)
         == inject_Z (theme_total answer_vector "gd") / 9)%Q
     /\ (boundaries (profile_dimensions p)
         == inject_Z (theme_total answer_vector "bp") / 9)%Q
     /\ (relationship_safety (profile_dimensions p)
         == inject_Z (theme_total answer_vector "rc") / 9)%Q)
  /\ (profile_in_range answer_vector = true ->
      exists p : profile, generate_profile answer_vector = Returned p)
  /\ (forall q v, q ∉ question_order ->
        generate_profile (<[q := v]> answer_vector)
        = generate_profile answer_vector).
Proof.
  split; [|split].
  - intros p Hp. destruct (profile_in_range answer_vector) eqn:Hrange.
    + destruct (generate_profile_returns answer_vector Hrange) as (summary & Hp').
      rewrite Hp' in Hp. injection Hp as <-.
      cbn [profile_dimensions emotional_clarity stress_management growth_mindset
           boundaries relationship_safety].
      assert (forall t : Z, (Qred (t # 9) == inject_Z t / 9)%Q) as Hninth.
      { intros t. rewrite Qred_correct. unfold Qeq, Qdiv, Qmult, Qinv, inject_Z.
        cbn. lia. }
      repeat split; apply Hninth.
    + rewrite (generate_profile_raises answer_vector Hrange) in Hp.
      discriminate Hp.
  - intros Hrange.
    destruct (generate_profile_returns answer_vector Hrange) as (summary & Hp).
    eexists. exact Hp.
  - intros q v Hq. unfold generate_profile. rewrite !profile_totals_spec.
    rewrite !(theme_total_insert_outside answer_vector q _ v Hq)
      by (rewrite !elem_of_cons; tauto).
    reflexivity.
Qed.

Lemma generate_profile_scores_witness :
  exists p : profile,
    generate_profile ack_high = Returned p
    /\ (emotional_clarity (profile_dimensions p)
        == inject_Z (theme_total ack_high "ack") / 9)%Q
    /\ (stress_management (profile_dimensions p)
        == inject_Z (theme_total ack_high "bp") / 9)%Q
    /\ (growth_mindset (profile_dimensions p)
        == inject_Z (theme_total ack_high "gd") / 9)%Q
    /\ (boundaries (profile_dimensions p)
        == inject_Z (theme_total ack_high "bp") / 9)%Q
    /\ (relationship_safety (profile_dimensions p)
        == inject_Z (theme_total ack_high "rc") / 9)%Q.
Proof.
  destruct (generate_profile_scores ack_high) as (Hscores & Hreturns & _).
  destruct Hreturns as (p & Hp); [vm_compute; reflexivity|].
  exists p. split; [exact Hp|]. apply Hscores. exact Hp.
Defined.

Example bp_answers_feed_two_dimensions :
  profile_dimensions <$> generate_profile {[ "bp_2" := 3; "zz_9" := 2 ]}
  = Returned (Dimensions 0 (1 # 3) 0 (1 # 3) 0)%Q.
Proof. vm_compute. reflexivity. Qed.

(** ** The thematic features *)








(** ** No exception leaves the core *)

Lemma int64_within_range : 3 * 2 ^ 63 < 9 * Py.DBL_OVERFLOW.
Proof. now vm_compute. Qed.

Lemma get_int64 (answer_vector : gmap string Z) (k : string) :
  int64_values answer_vector = true ->
  - 2 ^ 63 <= Py.get answer_vector k 0 < 2 ^ 63.
Proof.
  intros Hall. unfold Py.get.
  destruct (answer_vector !! k) as [v|] eqn:Hk; cbn; [|lia].
  unfold int64_values in Hall. rewrite forallb_forall in Hall.
  specialize (Hall v). rewrite andb_true_iff, Z.leb_le, Z.ltb_lt in Hall.
  apply Hall, list_elem_of_In. unfold Py.values.
  apply list_elem_of_fmap. exists (k, v). split; [reflexivity|].
  apply elem_of_map_to_list. exact Hk.
Qed.

Lemma int64_profile_in_range (answer_vector : gmap string Z) :
  int64_values answer_vector = true -> profile_in_range answer_vector = true.
Proof.
  intros Hall. pose proof int64_within_range as Hbig.
  assert (forall theme, ninth_in_range (theme_total answer_vector theme) = true)
    as Htheme.
  { intros theme. unfold ninth_in_range, theme_total. apply Z.ltb_lt.
    pose proof (get_int64 answer_vector (theme_qid theme 1) Hall).
    pose proof (get_int64 answer_vector (theme_qid theme 2) Hall).
    pose proof (get_int64 answer_vector (theme_qid theme 3) Hall).
    lia. }
  unfold profile_in_range. cbn [forallb]. rewrite !Htheme. reflexivity.
Qed.

(** C9, as the specification words it, fails for [generate_profile]: an
    option value of 10^400 makes a theme total whose ninth is no double,
    and the division of line 218 raises [OverflowError]. *)
Lemma generate_profile_overflow_counterexample :
  generate_profile {[ "ack_1" := 10 ^ 400 ]} = Raised OverflowError.
Proof. vm_compute. reflexivity. Qed.

(** C9 (amended): [compute_similarity] returns a value for every pair of
    answer mappings and every integer in them, also when the encoder it
    calls raises inside the [try] block; on every answer mapping whose
    option values fit a signed 64-bit integer, the encoder returns its 26
    numbers and [generate_profile] returns a profile. ([build_answer_vector]
    is a dict comprehension: it has no step that can fail.) *)
Theorem core_operations_return :
  (forall encode vec_a vec_b,
     exists score : R, compute_similarity_with encode vec_a vec_b = Returned score)
  /\ (forall vec_a vec_b,
        exists score : R, compute_similarity vec_a vec_b = Returned score)
  /\ (forall answer_vector,
        int64_values answer_vector = true ->
        (exists fv : list R,
           build_ai_feature_vector answer_vector = Returned fv
           /\ length fv = 26%nat)
        /\ (exists p : profile, generate_profile answer_vector = Returned p)).
Proof.
  split; [|split].
  - intros encode vec_a vec_b.
    destruct (compute_similarity_with_range encode vec_a vec_b) as (score & Hs & _).
    exists score. exact Hs.
  - intros vec_a vec_b.
    destruct (compute_similarity_with_range build_ai_feature_vector vec_a vec_b)
      as (score & Hs & _).
    exists score. exact Hs.
  - intros answer_vector Hall. split.
    + destruct (build_ai_feature_vector_returned answer_vector)
        as (fv & Hfv & Hlen & _).
      exists fv. split; assumption.
    + destruct (generate_profile_returns answer_vector
                  (int64_profile_in_range answer_vector Hall)) as (summary & Hp).
      eexists. exact Hp.
Qed.

Lemma core_operations_return_witness :
  (exists fv : list R,
     build_ai_feature_vector ack_high = Returned fv /\ length fv = 26%nat)
  /\ (exists p : profile, generate_profile ack_high = Returned p).
Proof.
  apply (proj2 (proj2 core_operations_return) ack_high).
  vm_compute. reflexivity.
Defined.

(** ** The norm of the encoding *)



(** The other half of C10: the empty mapping does take the all-zero
    branch. *)
Lemma empty_encoding_zero :
  build_ai_feature_vector ∅ = Returned (replicate 26 0%R).
Proof.
  destruct (build_ai_feature_vector_returned ∅) as (fv & Hfv & _ & _ & Hzero).
  rewrite Hfv, (Hzero eq_refl). reflexivity.
Qed.

(** * Further properties of the code *)

(** ** The answer mapping *)

Lemma build_answer_vector_snoc (l : list Answer) (a : Answer) :
  build_answer_vector (l ++ [a])
  = <[question_id a := option_value a]> (build_answer_vector l).
Proof. unfold build_answer_vector. rewrite foldl_snoc. reflexivity. Qed.

(** X1: the mapping built from a list of answers holds, under each
    question identifier, the option value of the last answer given to that
    question, and nothing under an identifier that no answer names. *)
Theorem build_answer_vector_last_answer (l : list Answer) (q : string) :
  build_answer_vector l !! q
  = option_value <$> last (filter (fun a => question_id a = q) l).
Proof.
  induction l as [|a l IH] using rev_ind; [reflexivity|].
  rewrite build_answer_vector_snoc, filter_app, lookup_insert.
  destruct (decide (question_id a = q)) as [Hq|Hq].
  - rewrite (filter_cons_True _ a []) by exact Hq.
    rewrite filter_nil, last_snoc. reflexivity.
  - rewrite (filter_cons_False _ a []) by exact Hq.
    rewrite filter_nil, app_nil_r. exact IH.
Qed.

Lemma build_answer_vector_dom (l : list Answer) :
  dom (build_answer_vector l) = list_to_set (question_id <$> l).
Proof.
  induction l as [|a l IH] using rev_ind; [reflexivity|].
  rewrite build_answer_vector_snoc, dom_insert_L, fmap_snoc,
    list_to_set_snoc_L, IH.
  apply (comm_L (∪)).
Qed.

(** X2: the mapping has one entry per distinct question identifier of the
    list: never more entries than answers, and exactly as many when no
    identifier is answered twice. *)
Theorem build_answer_vector_size (l : list Answer) :
  dom (build_answer_vector l) = list_to_set (question_id <$> l)
  /\ (size (build_answer_vector l) <= length l)%nat
  /\ (NoDup (question_id <$> l) -> size (build_answer_vector l) = length l).
Proof.
  pose proof (build_answer_vector_dom l) as Hdom.
  assert (size (build_answer_vector l)
          = size (list_to_set (question_id <$> l) : gset string)) as Hsize
      by (rewrite <- Hdom, size_dom; reflexivity).
  split; [exact Hdom|]. split.
  - rewrite Hsize. clear. induction l as [|a l IH]; [reflexivity|].
    cbn [fmap list_fmap]. rewrite list_to_set_cons.
    pose proof (size_union_alt ({[question_id a]} : gset string)
                  (list_to_set (question_id <$> l))) as Hu.
    pose proof (subseteq_size
                  (list_to_set (question_id <$> l) ∖ {[question_id a]})
                  (list_to_set (question_id <$> l) : gset string)) as Hs.
    rewrite size_singleton in Hu.
    assert (list_to_set (question_id <$> l) ∖ {[question_id a]}
            ⊆ (list_to_set (question_id <$> l) : gset string)) as Hsub
        by (apply subseteq_difference_l; reflexivity).
    specialize (Hs Hsub). cbn [length].
    change (list_fmap Answer string question_id l) with (question_id <$> l).
    lia.
  - intros Hnd. rewrite Hsize, size_list_to_set by exact Hnd.
    apply length_fmap.
Qed.

Lemma build_answer_vector_size_witness :
  size (build_answer_vector [ Build_Answer "ack_1" 1; Build_Answer "bp_1" 2 ])
  = length [ Build_Answer "ack_1" 1; Build_Answer "bp_1" 2 ].
Proof.
  apply (build_answer_vector_size
           [ Build_Answer "ack_1" 1; Build_Answer "bp_1" 2 ]).
  apply (bool_decide_unpack _). vm_compute. exact I.
Defined.

(** ** The exact-match ratio as a count *)

Lemma count_exact_matches_filter (vec_a vec_b : gmap string Z) (l : list string) :
  (forall q, q ∈ l -> q ∈ dom vec_a /\ q ∈ dom vec_b) ->
  count_exact_matches vec_a vec_b l
  = Returned (Py.len (filter (fun q => vec_a !! q = vec_b !! q) l)).
Proof.
  unfold Py.len. induction l as [|q l IH]; intros Hdom; [reflexivity|].
  destruct (Hdom q) as [Ha Hb]; [left|].
  apply elem_of_dom in Ha as [a Ha]. apply elem_of_dom in Hb as [b Hb].
  cbn [count_exact_matches foldr]. fold (count_exact_matches vec_a vec_b l).
  rewrite IH by (intros q' Hq'; apply Hdom; right; exact Hq').
  unfold Py.getitem. rewrite Ha, Hb. cbn [mbind outcome_bind mret outcome_ret].
  f_equal. destruct (Z.eqb_spec a b) as [->|Hne].
  - rewrite filter_cons_True by congruence. cbn [length]. lia.
  - rewrite filter_cons_False by congruence. reflexivity.
Qed.

Lemma filter_length_all {A : Type} (P : A -> Prop) `{forall x, Decision (P x)}
    (l : list A) :
  length (filter P l) = length l <-> forall x, x ∈ l -> P x.
Proof.
  induction l as [|a l IH].
  - split; [intros _ x Hx; apply elem_of_nil in Hx; contradiction | reflexivity].
  - destruct (decide (P a)) as [Ha|Ha].
    + rewrite filter_cons_True by exact Ha. cbn [length]. split.
      * intros Hlen x Hx. apply elem_of_cons in Hx as [->|Hx]; [exact Ha|].
        apply IH; [lia | exact Hx].
      * intros Hall. f_equal. apply IH. intros x Hx. apply Hall. right. exact Hx.
    + rewrite filter_cons_False by exact Ha. cbn [length]. split.
      * intros Hlen. pose proof (length_filter P l). lia.
      * intros Hall. exfalso. apply Ha, Hall. left.
Qed.

Lemma agreeing_all (vec_a vec_b : gmap string Z) :
  length (agreeing vec_a vec_b) = size (dom vec_a ∩ dom vec_b)
  <-> agree_on_shared vec_a vec_b.
Proof.
  unfold agreeing, agree_on_shared. rewrite size_elements, filter_length_all.
  split; intros Hall q.
  - intros Ha Hb. apply Hall, elem_of_elements, elem_of_intersection. tauto.
  - intros Hq. apply elem_of_elements, elem_of_intersection in Hq as [Ha Hb].
    apply Hall; assumption.
Qed.

Lemma exact_ratio_of_count (vec_a vec_b : gmap string Z) :
  dom vec_a ∩ dom vec_b <> ∅ ->
  exact_ratio_of vec_a vec_b
  = Returned (Qred (Py.len (agreeing vec_a vec_b)
                    # Z.to_pos (Z.of_nat (size (dom vec_a ∩ dom vec_b))))).
Proof.
  intros Hshared. unfold exact_ratio_of.
  rewrite bool_decide_eq_true_2 by exact Hshared.
  rewrite count_exact_matches_filter.
  2: { intros q Hq. apply elem_of_elements, elem_of_intersection in Hq. exact Hq. }
  cbn [mbind outcome_bind]. fold (agreeing vec_a vec_b).
  apply truediv_ratio; [|apply size_pos; exact Hshared].
  unfold Py.len, agreeing. rewrite size_elements.
  pose proof (length_filter (fun q => vec_a !! q = vec_b !! q)
                (elements (dom vec_a ∩ dom vec_b))). lia.
Qed.

Lemma exact_ratio_of_spec (vec_a vec_b : gmap string Z) :
  exists er : Q,
    exact_ratio_of vec_a vec_b = Returned er
    /\ (0 <= er <= 1)%Q
    /\ (er * inject_Z (Z.of_nat (size (dom vec_a ∩ dom vec_b)))
        == inject_Z (Py.len (agreeing vec_a vec_b)))%Q
    /\ (Qle_bool 1 er = true
        <-> dom vec_a ∩ dom vec_b <> ∅ /\ agree_on_shared vec_a vec_b).
Proof.
  destruct (exact_ratio_of_returned vec_a vec_b) as (er & Her & Hbounds).
  exists er. split; [exact Her|]. split; [exact Hbounds|].
  destruct (decide (dom vec_a ∩ dom vec_b = ∅)) as [Hempty|Hshared].
  - rewrite (exact_ratio_of_disjoint _ _ Hempty) in Her. injection Her as <-.
    unfold agreeing. rewrite Hempty, elements_empty, size_empty. split.
    + reflexivity.
    + split; [discriminate | intros [Hne _]; contradiction].
  - rewrite (exact_ratio_of_count _ _ Hshared) in Her. injection Her as <-.
    pose proof (size_pos _ Hshared) as Hpos.
    pose proof (agreeing_all vec_a vec_b) as Hall.
    assert (length (agreeing vec_a vec_b) <= size (dom vec_a ∩ dom vec_b))%nat
      as Hle.
    { unfold agreeing. rewrite size_elements. apply length_filter. }
    split.
    + rewrite Qred_correct. unfold Qeq, Qmult, inject_Z; cbn.
      rewrite Pos.mul_1_r, Z2Pos.id by lia. lia.
    + rewrite Qle_bool_iff, Qred_correct. unfold Qle, Py.len; cbn.
      rewrite Z2Pos.id by lia. rewrite <- Hall. split.
      * intros Hge. split; [exact Hshared | lia].
      * intros [_ Heq]. lia.
Qed.

(** X3: the ratio of exact matches is always a value, the division being
    guarded: it lies in [0, 1], it is the number of shared questions
    answered alike over the number of shared questions (0 when none is
    shared), and it is 1 exactly when a question is shared and every
    shared question is answered alike. *)
Theorem exact_ratio_counts_agreement (vec_a vec_b : gmap string Z) :
  exists er : Q,
    exact_ratio_of vec_a vec_b = Returned er
    /\ (0 <= er <= 1)%Q
    /\ (er * inject_Z (Z.of_nat (size (dom vec_a ∩ dom vec_b)))
        == inject_Z (Py.len (agreeing vec_a vec_b)))%Q
    /\ ((er == 1)%Q
        <-> dom vec_a ∩ dom vec_b <> ∅ /\ agree_on_shared vec_a vec_b).
Proof.
  destruct (exact_ratio_of_spec vec_a vec_b)
    as (er & Her & [H0 H1] & Hcount & Hone).
  exists er. split; [exact Her|]. split; [split; assumption|].
  split; [exact Hcount|]. rewrite <- Hone, Qle_bool_iff. split.
  - intros ->. apply Qle_refl.
  - intros Hge. apply Qle_antisym; assumption.
Qed.

Lemma clamp01_below_one (x : R) : (x < 1)%R -> (Py.clamp01 x < 1)%R.
Proof.
  intros Hx. unfold Py.clamp01, Rmax, Rmin.
  destruct (Rle_dec 1 x), (Rle_dec 0 1), (Rle_dec 0 x); lra.
Qed.

Lemma clamp01_lower (x c : R) : (0 < c)%R -> (c <= Py.clamp01 x)%R -> (c <= x)%R.
Proof.
  intros Hc. unfold Py.clamp01, Rmax, Rmin.
  destruct (Rle_dec 1 x), (Rle_dec 0 1), (Rle_dec 0 x); lra.
Qed.

Lemma combined_similarity_below_one (er : Q) (ai : R) :
  (Q2R er < 1)%R -> (ai <= 1)%R -> (combined_similarity er ai < 1)%R.
Proof.
  intros Her Hai. rewrite combined_similarity_formula.
  destruct (Rle_dec 0.9 (Q2R er)); lra.
Qed.

(** The score is 1.0 exactly by the short cut of line 136. *)
Lemma compute_similarity_one_iff (vec_a vec_b : gmap string Z) :
  compute_similarity vec_a vec_b = Returned 1%R
  <-> dom vec_a ∩ dom vec_b <> ∅ /\ agree_on_shared vec_a vec_b.
Proof.
  destruct (exact_ratio_of_spec vec_a vec_b)
    as (er & Her & [H0 H1] & _ & Hone).
  destruct (build_ai_feature_vector_returned vec_a) as (fa & Hfa & _).
  destruct (build_ai_feature_vector_returned vec_b) as (fb & Hfb & _).
  rewrite (compute_similarity_eval vec_a vec_b er fa fb Her Hfa Hfb).
  split.
  - destruct (bool_decide (vec_a = ∅) || bool_decide (vec_b = ∅)).
    { intros Heq. injection Heq as Heq. lra. }
    destruct (bool_decide_reflect (dom vec_a ∩ dom vec_b ≠ ∅)) as [Hshared|Hno];
      cbn [andb].
    + destruct (Qle_bool 1 er) eqn:Hq.
      * intros _. apply Hone. reflexivity.
      * intros Heq. injection Heq as Heq. exfalso.
        assert (Q2R er < 1)%R as Hlt.
        { apply Rnot_le_lt. intros Hge. rewrite <- Q2R_one in Hge.
          apply Qle_bool_Rle in Hge. congruence. }
        pose proof (ai_similarity_of_bounds fa fb er (conj H0 H1)) as [_ Hai].
        pose proof (clamp01_below_one _
                      (combined_similarity_below_one er _ Hlt Hai)). lra.
    + intros Heq. injection Heq as Heq. exfalso.
      assert (dom vec_a ∩ dom vec_b = ∅) as Hempty
          by (destruct (decide (dom vec_a ∩ dom vec_b = ∅)); [assumption|contradiction]).
      rewrite (exact_ratio_of_disjoint _ _ Hempty) in Her. injection Her as <-.
      pose proof (ai_similarity_of_bounds fa fb 0 (conj H0 H1)) as [_ Hai].
      assert (Q2R 0 < 1)%R as Hlt by (rewrite Q2R_zero; lra).
      pose proof (clamp01_below_one _
                    (combined_similarity_below_one 0 _ Hlt Hai)). lra.
  - intros [Hshared Hagree].
    assert (vec_a <> ∅) as Ha.
    { intros ->. apply Hshared. rewrite dom_empty_L. apply (left_absorb_L _ _). }
    assert (vec_b <> ∅) as Hb.
    { intros ->. apply Hshared. rewrite dom_empty_L. apply (right_absorb_L _ _). }
    rewrite (bool_decide_eq_false_2 _ Ha), (bool_decide_eq_false_2 _ Hb).
    rewrite (bool_decide_eq_true_2 _ Hshared).
    rewrite (proj2 Hone (conj Hshared Hagree)). reflexivity.
Qed.

(** X4: [compute_similarity] returns exactly 1.0 if and only if the two
    mappings share a question and answer every shared question alike;
    answers to questions the other mapping lacks play no part. The blend
    itself stays below 1. *)
Theorem perfect_score_iff_shared_answers_agree (vec_a vec_b : gmap string Z) :
  compute_similarity vec_a vec_b = Returned 1%R
  <-> dom vec_a ∩ dom vec_b <> ∅ /\ agree_on_shared vec_a vec_b.
Proof. apply compute_similarity_one_iff. Qed.

Example perfect_score_on_partial_overlap :
  compute_similarity {[ "ack_1" := 1 ]} {[ "ack_1" := 1; "bp_1" := 3 ]}
  = Returned 1%R.
Proof.
  apply compute_similarity_one_iff. split.
  - intros Hempty. apply (f_equal (fun X : gset string => bool_decide ("ack_1" ∈ X)))
      in Hempty. vm_compute in Hempty. discriminate Hempty.
  - intros q Ha Hb. apply elem_of_dom in Ha as [v Hv].
    apply lookup_singleton_Some in Hv as [<- <-]. now vm_compute.
Qed.

Lemma high_score_exact_ratio (vec_a vec_b : gmap string Z) (score : R) :
  compute_similarity vec_a vec_b = Returned score ->
  (0.9 <= score)%R ->
  dom vec_a ∩ dom vec_b <> ∅
  /\ exists er : Q,
       exact_ratio_of vec_a vec_b = Returned er /\ (3 # 4 <= er)%Q.
Proof.
  intros Hscore Hhigh.
  destruct (exact_ratio_of_spec vec_a vec_b)
    as (er & Her & [H0 H1] & _ & Hone).
  destruct (build_ai_feature_vector_returned vec_a) as (fa & Hfa & _).
  destruct (build_ai_feature_vector_returned vec_b) as (fb & Hfb & _).
  rewrite (compute_similarity_eval vec_a vec_b er fa fb Her Hfa Hfb) in Hscore.
  assert (Q2R (3 # 4) = 0.75)%R as H34 by (unfold Q2R; simpl; lra).
  assert ((3 # 4 <= er)%Q -> dom vec_a ∩ dom vec_b <> ∅) as Hshared.
  { intros Hge Hempty.
    rewrite (exact_ratio_of_disjoint _ _ Hempty) in Her. injection Her as <-.
    revert Hge. unfold Qle; cbn. lia. }
  assert (3 # 4 <= er)%Q as Hge.
  { destruct (bool_decide (vec_a = ∅) || bool_decide (vec_b = ∅)).
    { injection Hscore as <-. lra. }
    destruct (bool_decide (dom vec_a ∩ dom vec_b ≠ ∅) && Qle_bool 1 er) eqn:Hcut.
    { apply andb_true_iff in Hcut as [_ Hq]. apply Qle_bool_iff in Hq.
      apply Qle_trans with 1%Q; [unfold Qle; cbn; lia | exact Hq]. }
    injection Hscore as <-.
    apply clamp01_lower in Hhigh; [|lra].
    pose proof (ai_similarity_of_bounds fa fb er (conj H0 H1)) as [_ Hai].
    apply Qle_Rle in H1. rewrite Q2R_one in H1.
    rewrite combined_similarity_formula in Hhigh.
    apply Rle_Qle. rewrite H34.
    destruct (Rle_dec 0.9 (Q2R er)); lra. }
  split; [apply Hshared; exact Hge|]. exists er. split; assumption.
Qed.

(** X5: a score of 0.9 or more, the bar for "highly similar", is reached
    only by mappings that share a question and answer at least three
    quarters of their shared questions alike. *)
Theorem high_score_needs_exact_matches (vec_a vec_b : gmap string Z) (score : R) :
  compute_similarity vec_a vec_b = Returned score ->
  (0.9 <= score)%R ->
  dom vec_a ∩ dom vec_b <> ∅
  /\ exists er : Q,
       exact_ratio_of vec_a vec_b = Returned er /\ (3 # 4 <= er)%Q.
Proof. apply high_score_exact_ratio. Qed.

Lemma high_score_needs_exact_matches_witness :
  dom ({[ "ack_1" := 1 ]} : gmap string Z)
  ∩ dom ({[ "ack_1" := 1; "bp_1" := 3 ]} : gmap string Z) <> ∅
  /\ exists er : Q,
       exact_ratio_of {[ "ack_1" := 1 ]} {[ "ack_1" := 1; "bp_1" := 3 ]}
       = Returned er
       /\ (3 # 4 <= er)%Q.
Proof.
  apply (high_score_needs_exact_matches
           {[ "ack_1" := 1 ]} {[ "ack_1" := 1; "bp_1" := 3 ]} 1).
  - exact perfect_score_on_partial_overlap.
  - lra.
Defined.

(** ** The components of the encoding *)



(** ** The scores and the summary of the profile *)

Lemma theme_total_on_scale (answer_vector : gmap string Z) (theme : string) :
  answers_on_scale answer_vector = true ->
  theme ∈ ["ack"; "bp"; "gd"; "rc"] ->
  0 <= theme_total answer_vector theme <= 9.
Proof.
  intros Hscale Htheme. unfold answers_on_scale in Hscale.
  rewrite forallb_forall in Hscale.
  assert (forall i, i ∈ [1; 2; 3] ->
            0 <= Py.get answer_vector (theme_qid theme i) 0 <= 3) as Hslot.
  { intros i Hi. specialize (Hscale (theme_qid theme i)).
    rewrite andb_true_iff, Z.leb_le, Z.leb_le in Hscale. apply Hscale.
    apply list_elem_of_In.
    rewrite !elem_of_cons, elem_of_nil in Htheme.
    rewrite !elem_of_cons, elem_of_nil in Hi.
    destruct Htheme as [->|[->|[->|[->|[]]]]], Hi as [->|[->|[->|[]]]];
      apply (bool_decide_unpack _); vm_compute; exact I. }
  unfold theme_total.
  pose proof (Hslot 1) as H1. pose proof (Hslot 2) as H2.
  pose proof (Hslot 3) as H3.
  rewrite !elem_of_cons in H1, H2, H3.
  specialize (H1 (or_introl eq_refl)).
  specialize (H2 (or_intror (or_introl eq_refl))).
  specialize (H3 (or_intror (or_intror (or_introl eq_refl)))). lia.
Qed.

Lemma ninth_on_scale (t : Z) : 0 <= t <= 9 -> (0 <= Qred (t # 9) <= 1)%Q.
Proof. intros Ht. rewrite !Qred_correct. unfold Qle; cbn. lia. Qed.

Lemma on_scale_in_range (answer_vector : gmap string Z) :
  answers_on_scale answer_vector = true -> profile_in_range answer_vector = true.
Proof.
  intros Hscale. pose proof int64_within_range as Hbig.
  assert (forall theme, theme ∈ ["ack"; "bp"; "gd"; "rc"] ->
            ninth_in_range (theme_total answer_vector theme) = true) as Hin.
  { intros theme Htheme. unfold ninth_in_range. apply Z.ltb_lt.
    pose proof (theme_total_on_scale answer_vector theme Hscale Htheme). lia. }
  unfold profile_in_range. cbn [forallb].
  rewrite !Hin by (rewrite !elem_of_cons; tauto). reflexivity.
Qed.

(** X7: when every catalog answer lies on the scale 0..3 (absent answers
    counting 0), [generate_profile] returns a profile and each of its five
    scores lies in [0, 1]. *)
Theorem scores_on_scale_are_fractions (answer_vector : gmap string Z) :
  answers_on_scale answer_vector = true ->
  exists p : profile,
    generate_profile answer_vector = Returned p
    /\ (0 <= emotional_clarity (profile_dimensions p) <= 1)%Q
    /\ (0 <= stress_management (profile_dimensions p) <= 1)%Q
    /\ (0 <= growth_mindset (profile_dimensions p) <= 1)%Q
    /\ (0 <= boundaries (profile_dimensions p) <= 1)%Q
    /\ (0 <= relationship_safety (profile_dimensions p) <= 1)%Q.
Proof.
  intros Hscale.
  destruct (generate_profile_returns answer_vector
              (on_scale_in_range answer_vector Hscale)) as (summary & Hp).
  eexists. split; [exact Hp|].
  cbn [profile_dimensions emotional_clarity stress_management growth_mindset
       boundaries relationship_safety].
  repeat split; apply ninth_on_scale;
    apply (theme_total_on_scale answer_vector _ Hscale);
    rewrite !elem_of_cons; tauto.
Qed.

Lemma scores_on_scale_are_fractions_witness :
  exists p : profile,
    generate_profile ack_high = Returned p
    /\ (0 <= emotional_clarity (profile_dimensions p) <= 1)%Q
    /\ (0 <= stress_management (profile_dimensions p) <= 1)%Q
    /\ (0 <= growth_mindset (profile_dimensions p) <= 1)%Q
    /\ (0 <= boundaries (profile_dimensions p) <= 1)%Q
    /\ (0 <= relationship_safety (profile_dimensions p) <= 1)%Q.
Proof.
  apply (scores_on_scale_are_fractions ack_high). vm_compute. reflexivity.
Defined.

Lemma band_ninth (t : Z) (strong weak : string) :
  band (Qred (t # 9)) strong weak = band_of_total t strong weak.
Proof.
  unfold band, band_of_total.
  assert (Qle_bool (7 # 10) (Qred (t # 9)) = (7 <=? t)) as ->.
  { apply eq_true_iff_eq. rewrite Qle_bool_iff, Qred_correct, Z.leb_le.
    unfold Qle; cbn. lia. }
  assert (Qle_bool (Qred (t # 9)) (3 # 10) = (t <=? 2)) as ->.
  { apply eq_true_iff_eq. rewrite Qle_bool_iff, Qred_correct, Z.leb_le.
    unfold Qle; cbn. lia. }
  reflexivity.
Qed.



Lemma generate_profile_summary (answer_vector : gmap string Z) (p : profile) :
  generate_profile answer_vector = Returned p ->
  let parts := summary_parts (profile_dimensions p) in
  profile_summary p
  = String.concat " "
      (if Py.truthy parts then parts
       else [ "Your responses suggest a mix of strengths and growth areas across emotions, boundaries, stress, and relationships." ])
  /\ profile_dimensions p
     = Dimensions (Qred (theme_total answer_vector "ack" # 9))
                  (Qred (theme_total answer_vector "bp" # 9))
                  (Qred (theme_total answer_vector "gd" # 9))
                  (Qred (theme_total answer_vector "bp" # 9))
                  (Qred (theme_total answer_vector "rc" # 9)).
Proof.
  intros Hp. destruct (profile_in_range answer_vector) eqn:Hrange.
  - revert Hp. unfold profile_in_range in Hrange; cbn [forallb] in Hrange.
    rewrite !andb_true_iff in Hrange.
    destruct Hrange as (Hack & Hbp & Hgd & Hrc & _).
    unfold generate_profile, normalise. rewrite profile_totals_spec.
    cbn [emotional_clarity stress_management growth_mindset boundaries
         relationship_safety].
    rewrite !ninth_in_range_score by assumption.
    cbn [mbind outcome_bind mret outcome_ret].
    intros Hp. injection Hp as <-. split; reflexivity.
  - rewrite (generate_profile_raises answer_vector Hrange) in Hp. discriminate Hp.
Qed.

(** X9: the summary is never empty, and it is the generic sentence exactly
    when every theme total lies in the middle band 3..6, that is when no
    dimension reaches 0.7 or falls to 0.3. *)
Theorem generic_summary_iff_middle_band (answer_vector : gmap string Z)
    (p : profile) :
  generate_profile answer_vector = Returned p ->
  profile_summary p <> ""
  /\ (profile_summary p
      = "Your responses suggest a mix of strengths and growth areas across emotions, boundaries, stress, and relationships."
      <-> middle_band (theme_total answer_vector "ack")
          /\ middle_band (theme_total answer_vector "bp")
          /\ middle_band (theme_total answer_vector "gd")
          /\ middle_band (theme_total answer_vector "rc")).
Proof.
  intros Hp. destruct (generate_profile_summary answer_vector p Hp) as [-> Hdims].
  cbv zeta. rewrite Hdims. unfold summary_parts, middle_band.
  cbn [emotional_clarity stress_management growth_mindset boundaries
       relationship_safety].
  rewrite !band_ninth. unfold band_of_total.
  generalize (theme_total answer_vector "ack") as ack.
  generalize (theme_total answer_vector "bp") as bp.
  generalize (theme_total answer_vector "gd") as gd.
  generalize (theme_total answer_vector "rc") as rc.
  intros rc gd bp ack.
  destruct (Z.leb_spec 7 ack), (Z.leb_spec ack 2), (Z.leb_spec 7 bp),
    (Z.leb_spec bp 2), (Z.leb_spec 7 gd), (Z.leb_spec gd 2),
    (Z.leb_spec 7 rc), (Z.leb_spec rc 2);
    try (exfalso; lia);
    (split; [vm_compute; discriminate|]);
    (split; [intros Heq; try (exfalso; vm_compute in Heq; discriminate Heq); lia
            | intros Hmid; try (exfalso; lia); reflexivity]).
Qed.

Lemma generic_summary_iff_middle_band_witness :
  exists p : profile,
    generate_profile {[ "ack_1" := 4; "bp_1" := 5; "gd_1" := 3; "rc_1" := 6 ]}
    = Returned p
    /\ profile_summary p
       = "Your responses suggest a mix of strengths and growth areas across emotions, boundaries, stress, and relationships.".
Proof.
  destruct (generate_profile_returns
              {[ "ack_1" := 4; "bp_1" := 5; "gd_1" := 3; "rc_1" := 6 ]})
    as (summary & Hp); [vm_compute; reflexivity|].
  eexists. split; [exact Hp|].
  apply (generic_summary_iff_middle_band _ _ Hp).
  unfold middle_band. vm_compute. intuition discriminate.
Defined.

(** ** Insertion-ordered dicts *)

Lemma odict_lookup_setitem_eq {V : Type} (d : odict V) (k : string) (v : V) :
  odict_lookup (odict_setitem d k v) k = Some v.
Proof.
  induction d as [|[k' v'] d IH]; cbn.
  - rewrite decide_True by reflexivity. reflexivity.
  - destruct (decide (k' = k)) as [->|Hne]; cbn.
    + rewrite decide_True by reflexivity. reflexivity.
    + rewrite decide_False by exact Hne. exact IH.
Qed.

Lemma odict_lookup_setitem_ne {V : Type} (d : odict V) (k k' : string) (v : V) :
  k' <> k -> odict_lookup (odict_setitem d k v) k' = odict_lookup d k'.
Proof.
  intros Hne. induction d as [|[k0 v0] d IH]; cbn.
  - rewrite decide_False by congruence. reflexivity.
  - destruct (decide (k0 = k)) as [->|Hk]; cbn.
    + rewrite !decide_False by congruence. reflexivity.
    + destruct (decide (k0 = k')); [reflexivity | exact IH].
Qed.

Lemma odict_lookup_None {V : Type} (d : odict V) (k : string) :
  odict_lookup d k = None <-> k ∉ odict_keys d.
Proof.
  unfold odict_keys. induction d as [|[k' v'] d IH]; cbn.
  - split; [intros _ H; apply elem_of_nil in H; contradiction | reflexivity].
  - rewrite not_elem_of_cons. destruct (decide (k' = k)) as [->|Hne].
    + split; [discriminate | intros [H _]; contradiction].
    + rewrite IH. split; [intros H; split; [congruence | exact H] | tauto].
Qed.

Lemma odict_lookup_elem {V : Type} (d : odict V) (k : string) (v : V) :
  odict_lookup d k = Some v -> (k, v) ∈ d.
Proof.
  induction d as [|[k' v'] d IH]; cbn; [discriminate|].
  destruct (decide (k' = k)) as [->|Hne].
  - intros [= ->]. left.
  - intros H. right. apply IH, H.
Qed.

Lemma odict_elem_lookup {V : Type} (d : odict V) (k : string) (v : V) :
  NoDup (odict_keys d) -> (k, v) ∈ d -> odict_lookup d k = Some v.
Proof.
  unfold odict_keys. induction d as [|[k' v'] d IH]; cbn; intros Hnd Hin.
  - apply elem_of_nil in Hin. contradiction.
  - apply NoDup_cons in Hnd as [Hk' Hnd].
    apply elem_of_cons in Hin as [[= -> ->]|Hin].
    + rewrite decide_True by reflexivity. reflexivity.
    + destruct (decide (k' = k)) as [->|Hne]; [|apply IH; assumption].
      exfalso. apply Hk'. apply (list_elem_of_fmap_2 fst) in Hin. exact Hin.
Qed.

Lemma odict_keys_setitem {V : Type} (d : odict V) (k : string) (v : V) :
  odict_keys (odict_setitem d k v)
  = if odict_contains d k then odict_keys d else odict_keys d ++ [k].
Proof.
  unfold odict_keys, odict_contains. induction d as [|[k' v'] d IH]; cbn.
  - reflexivity.
  - destruct (decide (k' = k)) as [->|Hne]; cbn; [reflexivity|].
    rewrite IH. destruct (odict_lookup d k); reflexivity.
Qed.

Lemma odict_setitem_NoDup {V : Type} (d : odict V) (k : string) (v : V) :
  NoDup (odict_keys d) -> NoDup (odict_keys (odict_setitem d k v)).
Proof.
  intros Hnd. rewrite odict_keys_setitem. unfold odict_contains.
  destruct (odict_lookup d k) eqn:Hk; [exact Hnd|].
  apply odict_lookup_None in Hk. apply NoDup_app. split; [exact Hnd|].
  split; [|apply NoDup_singleton].
  intros x Hx Hin. apply list_elem_of_singleton in Hin as ->. contradiction.
Qed.

Lemma odict_setitem_elem {V : Type} (d : odict V) (k k' : string) (v v' : V) :
  NoDup (odict_keys d) ->
  (k', v') ∈ odict_setitem d k v
  <-> (k' = k /\ v' = v) \/ (k' <> k /\ (k', v') ∈ d).
Proof.
  intros Hnd. pose proof (odict_setitem_NoDup d k v Hnd) as Hnd'.
  split.
  - intros Hin. apply (odict_elem_lookup _ _ _ Hnd') in Hin.
    destruct (decide (k' = k)) as [->|Hne].
    + rewrite odict_lookup_setitem_eq in Hin. left. split; congruence.
    + rewrite odict_lookup_setitem_ne in Hin by exact Hne.
      right. split; [exact Hne | apply odict_lookup_elem, Hin].
  - intros [[-> ->]|[Hne Hin]]; apply odict_lookup_elem.
    + apply odict_lookup_setitem_eq.
    + rewrite odict_lookup_setitem_ne by exact Hne.
      apply odict_elem_lookup; assumption.
Qed.

(** ** The stable sort *)





(** ** The loops of the request handlers *)

Lemma compute_similarity_returns (vec_a vec_b : gmap string Z) :
  exists score : R,
    compute_similarity vec_a vec_b = Returned score /\ (0 <= score <= 1)%R.
Proof. apply compute_similarity_with_range. Qed.


Lemma highly_similar_true (score : R) :
  highly_similar score = true <-> (0.9 <= score)%R.
Proof.
  unfold highly_similar. destruct (Rle_dec 0.9 score); split;
    try discriminate; try reflexivity; tauto.
Qed.

Section HandlerFacts.

Variable round_ndigits : R -> Z -> R.

(** The loop over the stored participants never raises; it keeps the
    entries of the others that score 0.9 or more, in the order of the
    store. *)
Lemma similar_loop_spec (pid : string) (answer_vector : gmap string Z)
    (items : odict Participant) :
  exists similarities : list Similar,
    similar_loop round_ndigits pid answer_vector items = Returned similarities
    /\ forall e : Similar,
         e ∈ similarities
         <-> exists other_id other_data score,
               (other_id, other_data) ∈ items
               /\ other_id <> pid
               /\ compute_similarity answer_vector (stored_answers other_data)
                  = Returned score
               /\ (0.9 <= score)%R
               /\ e = similar_entry round_ndigits other_id other_data score.
Proof.
  induction items as [|[other_id other_data] items (sims & Hsims & Hspec)].
  - exists []. split; [reflexivity|]. intros e. split.
    + intros He. apply elem_of_nil in He. contradiction.
    + intros (? & ? & ? & Hin & _). apply elem_of_nil in Hin. contradiction.
  - cbn [similar_loop]. destruct (decide (other_id = pid)) as [->|Hne].
    + exists sims. split; [exact Hsims|]. intros e. rewrite Hspec. split.
      * intros (oid & od & s & Hin & Hrest). exists oid, od, s.
        split; [right; exact Hin | exact Hrest].
      * intros (oid & od & s & Hin & Hoid & Hrest).
        apply elem_of_cons in Hin as [[= -> ->]|Hin]; [contradiction|].
        exists oid, od, s. tauto.
    + destruct (compute_similarity_returns answer_vector
                  (stored_answers other_data)) as (score & Hscore & _).
      rewrite Hscore, Hsims. cbn [mbind outcome_bind mret outcome_ret].
      eexists. split; [reflexivity|]. intros e.
      destruct (highly_similar score) eqn:Hhigh.
      * apply highly_similar_true in Hhigh. rewrite elem_of_cons, Hspec. split.
        -- intros [->|(oid & od & s & Hin & Hrest)].
           ++ exists other_id, other_data, score.
              split; [left|]. repeat split; assumption.
           ++ exists oid, od, s. split; [right; exact Hin | exact Hrest].
        -- intros (oid & od & s & Hin & Hoid & Hs & Hge & ->).
           apply elem_of_cons in Hin as [[= -> ->]|Hin].
           ++ left. rewrite Hscore in Hs. injection Hs as <-. reflexivity.
           ++ right. exists oid, od, s. tauto.
      * assert (~ (0.9 <= score)%R) as Hlow.
        { intros Hge. apply highly_similar_true in Hge. congruence. }
        rewrite Hspec. split.
        -- intros (oid & od & s & Hin & Hrest). exists oid, od, s.
           split; [right; exact Hin | exact Hrest].
        -- intros (oid & od & s & Hin & Hoid & Hs & Hge & ->).
           apply elem_of_cons in Hin as [[= -> ->]|Hin].
           ++ rewrite Hscore in Hs. injection Hs as <-. contradiction.
           ++ exists oid, od, s. tauto.
Qed.

Lemma submit_responses_eval (now : string) (payload : ParticipantSubmission)
    (st : Store) :
  let answer_vector := build_answer_vector (answers payload) in
  match generate_profile answer_vector with
  | Raised e => submit_responses round_ndigits now payload st = (st, Raised e)
  | Returned profile =>
      match build_ai_feature_vector answer_vector with
      | Raised e => submit_responses round_ndigits now payload st = (st, Raised e)
      | Returned features =>
          let st' := stored_after now payload profile features st in
          exists similarities : list Similar,
            similar_loop round_ndigits (participant_id payload) answer_vector
              (participants st') = Returned similarities
            /\ submit_responses round_ndigits now payload st
               = (st',
                  Returned
                    {| response_participant_id := participant_id payload;
                       response_participant_name := display_name payload;
                       response_profile := profile;
                       response_profile_snapshot :=
                         new_snapshot now payload profile features;
                       highly_similar_participants :=
                         sort_desc similarity similarities;
                       has_similar_matches :=
                         (0 <? Py.len (sort_desc similarity similarities));
                       submission_timestamp := now |})
      end
  end.
Proof.
  cbv zeta. unfold submit_responses.
  destruct (generate_profile (build_answer_vector (answers payload)))
    as [profile|e]; [|reflexivity].
  destruct (build_ai_feature_vector (build_answer_vector (answers payload)))
    as [features|e]; [|reflexivity].
  destruct (similar_loop_spec (participant_id payload)
              (build_answer_vector (answers payload))
              (participants (stored_after now payload profile features st)))
    as (sims & Hsims & _).
  exists sims. split; [exact Hsims|].
  unfold mbind, handler_bind, lift, read_store, write_store, mret, handler_ret.
  cbn. unfold stored_after in Hsims. cbn in Hsims. rewrite Hsims. reflexivity.
Qed.


Lemma submit_responses_inv (now : string) (payload : ParticipantSubmission)
    (st st' : Store) (resp : SubmitResponse) :
  submit_responses round_ndigits now payload st = (st', Returned resp) ->
  exists (profile : profile) (features : list R) (similarities : list Similar),
    generate_profile (build_answer_vector (answers payload)) = Returned profile
    /\ build_ai_feature_vector (build_answer_vector (answers payload))
       = Returned features
    /\ similar_loop round_ndigits (participant_id payload)
         (build_answer_vector (answers payload))
         (participants (stored_after now payload profile features st))
       = Returned similarities
    /\ st' = stored_after now payload profile features st
    /\ response_profile resp = profile
    /\ response_profile_snapshot resp = new_snapshot now payload profile features
    /\ highly_similar_participants resp = sort_desc similarity similarities
    /\ has_similar_matches resp
       = (0 <? Py.len (highly_similar_participants resp)).
Proof.
  intros Hsubmit. pose proof (submit_responses_eval now payload st) as Heval.
  cbv zeta in Heval.
  destruct (generate_profile (build_answer_vector (answers payload)))
    as [profile|e]; [|rewrite Heval in Hsubmit; discriminate Hsubmit].
  destruct (build_ai_feature_vector (build_answer_vector (answers payload)))
    as [features|e]; [|rewrite Heval in Hsubmit; discriminate Hsubmit].
  destruct Heval as (sims & Hsims & Heq). rewrite Heq in Hsubmit.
  injection Hsubmit as <- <-. exists profile, features, sims.
  repeat split; try reflexivity. exact Hsims.
Qed.

Lemma submit_responses_returns (now : string) (payload : ParticipantSubmission)
    (st : Store) :
  int64_values (build_answer_vector (answers payload)) = true ->
  exists (st' : Store) (resp : SubmitResponse),
    submit_responses round_ndigits now payload st = (st', Returned resp).
Proof.
  intros Hint. pose proof (submit_responses_eval now payload st) as Heval.
  cbv zeta in Heval.
  destruct (generate_profile_returns _ (int64_profile_in_range _ Hint))
    as (summary & Hp).
  destruct (build_ai_feature_vector_returned
              (build_answer_vector (answers payload))) as (fv & Hfv & _).
  rewrite Hp, Hfv in Heval. destruct Heval as (sims & _ & Heq).
  eexists _, _. exact Heq.
Qed.

Lemma submit_failure_unchanged (now : string) (payload : ParticipantSubmission)
    (st st' : Store) (e : exn) :
  submit_responses round_ndigits now payload st = (st', Raised e) -> st' = st.
Proof.
  intros Hsubmit. pose proof (submit_responses_eval now payload st) as Heval.
  cbv zeta in Heval.
  destruct (generate_profile (build_answer_vector (answers payload)))
    as [profile|e1].
  - destruct (build_ai_feature_vector (build_answer_vector (answers payload)))
      as [features|e2].
    + destruct Heval as (sims & _ & Heq). rewrite Heq in Hsubmit.
      discriminate Hsubmit.
    + rewrite Heval in Hsubmit. injection Hsubmit as <- _. reflexivity.
  - rewrite Heval in Hsubmit. injection Hsubmit as <- _. reflexivity.
Qed.

Lemma store_wf_stored_after (now : string) (payload : ParticipantSubmission)
    (profile : profile) (features : list R) (st : Store) :
  store_wf st -> store_wf (stored_after now payload profile features st).
Proof.
  intros [Hnd Hids]. split.
  - apply odict_setitem_NoDup, Hnd.
  - unfold stored_after; cbn [participants].
    rewrite Forall_forall in Hids |- *. intros [k p] Hin.
    apply (odict_setitem_elem _ _ _ _ _ Hnd) in Hin as [[-> ->]|[_ Hin]].
    + reflexivity.
    + apply (Hids (k, p)), Hin.
Qed.





Lemma precedes_elem (l : list string) (x y : string) :
  precedes l x y -> x ∈ l /\ y ∈ l.
Proof.
  intros (l1 & l2 & l3 & ->). split.
  - apply elem_of_app. right. left.
  - apply elem_of_app. right. right. apply elem_of_app. right. left.
Qed.




Lemma pair_loop_nil (stored : odict Participant) (i : string) :
  pair_loop round_ndigits stored i [] = Returned [].
Proof. reflexivity. Qed.




End HandlerFacts.

Section HandlerTheorems.

Variable round_ndigits : R -> Z -> R.

(** X10: a submission that fails leaves both stores as they were: the
    profile and the encoding are computed before anything is written. *)
Theorem submit_failure_keeps_store (now : string) (payload : ParticipantSubmission)
    (st st' : Store) (e : exn) :
  submit_responses round_ndigits now payload st = (st', Raised e) -> st' = st.
Proof. apply submit_failure_unchanged. Qed.

(** X11: a submission whose option values fit 64 bits succeeds and files
    the participant under its identifier, with the answers, the profile of
    the response, the display name and the time of the call; the entries
    of all other identifiers are as before. *)
Theorem submit_stores_participant (now : string) (payload : ParticipantSubmission)
    (st : Store) :
  int64_values (build_answer_vector (answers payload)) = true ->
  exists (st' : Store) (resp : SubmitResponse) (entry : Participant),
    submit_responses round_ndigits now payload st = (st', Returned resp)
    /\ odict_lookup (participants st') (participant_id payload) = Some entry
    /\ stored_id entry = participant_id payload
    /\ stored_name entry = display_name payload
    /\ stored_answers entry = build_answer_vector (answers payload)
    /\ stored_profile entry = response_profile resp
    /\ stored_timestamp entry = now
    /\ (forall other_id, other_id <> participant_id payload ->
          odict_lookup (participants st') other_id
          = odict_lookup (participants st) other_id).
Proof.
  intros Hint.
  destruct (submit_responses_returns round_ndigits now payload st Hint)
    as (st' & resp & Hsubmit).
  destruct (submit_responses_inv _ _ _ _ _ _ Hsubmit)
    as (profile & features & sims & _ & _ & _ & -> & Hprofile & _).
  eexists _, resp, _. split; [exact Hsubmit|].
  unfold stored_after; cbn [participants].
  split; [apply odict_lookup_setitem_eq|].
  repeat split; try reflexivity.
  - rewrite Hprofile. reflexivity.
  - intros other_id Hne. apply odict_lookup_setitem_ne. exact Hne.
Qed.

(** X12: a successful submission appends exactly one snapshot to the
    history, the one of the response, holding the answers and their
    encoding, and keeps all earlier snapshots. In [participants] a known
    identifier keeps its place and a new one goes to the end: submitting
    again under the same identifier replaces the entry, it adds none. *)
Theorem submit_appends_history (now : string) (payload : ParticipantSubmission)
    (st st' : Store) (resp : SubmitResponse) :
  submit_responses round_ndigits now payload st = (st', Returned resp) ->
  profile_snapshots st' = profile_snapshots st ++ [response_profile_snapshot resp]
  /\ snapshot_participant_id (response_profile_snapshot resp)
     = participant_id payload
  /\ snapshot_answers (response_profile_snapshot resp)
     = build_answer_vector (answers payload)
  /\ build_ai_feature_vector (build_answer_vector (answers payload))
     = Returned (snapshot_ai_feature_vector (response_profile_snapshot resp))
  /\ odict_keys (participants st')
     = if odict_contains (participants st) (participant_id payload)
       then odict_keys (participants st)
       else odict_keys (participants st) ++ [participant_id payload].
Proof.
  intros Hsubmit.
  destruct (submit_responses_inv _ _ _ _ _ _ Hsubmit)
    as (profile & features & sims & _ & Hfv & _ & -> & _ & -> & _).
  unfold stored_after; cbn [participants profile_snapshots].
  repeat split; try reflexivity; [exact Hfv | apply odict_keys_setitem].
Qed.

(** X13: the stores stay well formed: starting empty, after any
    submission (successful or not) and after a reset, no identifier is
    stored twice and every entry is filed under its own identifier. *)
Theorem handlers_keep_store_wf :
  store_wf empty_store
  /\ (forall now payload st, store_wf st ->
        store_wf (submit_responses round_ndigits now payload st).1)
  /\ (forall st, store_wf (reset st).1).
Proof.
  assert (store_wf empty_store) as Hempty.
  { split; [apply NoDup_nil_2 | apply Forall_nil_2]. }
  split; [exact Hempty|]. split; [|intros st; exact Hempty].
  intros now payload st Hwf.
  destruct (submit_responses round_ndigits now payload st) as [st' [resp|e]]
    eqn:Hsubmit; cbn [fst].
  - destruct (submit_responses_inv _ _ _ _ _ _ Hsubmit)
      as (profile & features & sims & _ & _ & _ & -> & _).
    apply store_wf_stored_after, Hwf.
  - rewrite (submit_failure_unchanged _ _ _ _ _ _ Hsubmit). exact Hwf.
Qed.



(** X16: the first submission after a reset reports no similar
    participant and leaves one participant and one snapshot. *)
Theorem first_submission_after_reset (now : string) (payload : ParticipantSubmission)
    (st st' : Store) (resp : SubmitResponse) :
  submit_responses round_ndigits now payload (reset st).1 = (st', Returned resp) ->
  highly_similar_participants resp = []
  /\ has_similar_matches resp = false
  /\ odict_keys (participants st') = [participant_id payload]
  /\ profile_snapshots st' = [response_profile_snapshot resp].
Proof.
  intros Hsubmit. change (reset st).1 with empty_store in Hsubmit.
  destruct (submit_responses_inv _ _ _ _ _ _ Hsubmit)
    as (profile & features & sims & _ & _ & Hsims & -> & _ & -> & Hsorted & Hhas).
  unfold stored_after in Hsims; cbn in Hsims.
  rewrite decide_True in Hsims by reflexivity. injection Hsims as <-.
  cbn in Hsorted. rewrite Hhas, Hsorted. repeat split.
Qed.









End HandlerTheorems.

(** X20: when the encoder raises on either mapping, the [except] clause
    of [compute_similarity] answers with the exact-match ratio, provided
    the two mappings are non-empty and do not already agree on all shared
    questions. *)
Theorem encoder_failure_gives_exact_ratio
    (encode : gmap string Z -> outcome (list R)) (vec_a vec_b : gmap string Z)
    (e : exn) (er : Q) :
  encode vec_a = Raised e \/ encode vec_b = Raised e ->
  vec_a <> ∅ -> vec_b <> ∅ ->
  exact_ratio_of vec_a vec_b = Returned er -> ~ (er == 1)%Q ->
  compute_similarity_with encode vec_a vec_b = Returned (Q2R er).
Proof. apply compute_similarity_encoder_failure. Qed.

(** ** The handlers at work *)

Lemma sample_payload_int64 :
  int64_values (build_answer_vector (answers sample_payload)) = true.
Proof. vm_compute. reflexivity. Qed.

Lemma huge_payload_fails (now : string) (st : Store) :
  submit_responses keep_digits now huge_payload st = (st, Raised OverflowError).
Proof.
  pose proof (submit_responses_eval keep_digits now huge_payload st) as Heval.
  cbv zeta in Heval.
  assert (generate_profile (build_answer_vector (answers huge_payload))
          = Raised OverflowError) as Hgp by (vm_compute; reflexivity).
  rewrite Hgp in Heval. exact Heval.
Qed.

Lemma submit_failure_keeps_store_witness :
  exists (st' : Store) (e : exn),
    submit_responses keep_digits "2024-05-01T10:00:00" huge_payload empty_store
    = (st', Raised e)
    /\ st' = empty_store.
Proof.
  exists empty_store, OverflowError.
  pose proof (huge_payload_fails "2024-05-01T10:00:00" empty_store) as Hfail.
  split; [exact Hfail|].
  exact (submit_failure_keeps_store keep_digits _ _ _ _ _ Hfail).
Defined.

Lemma submit_stores_participant_witness :
  exists (st' : Store) (resp : SubmitResponse) (entry : Participant),
    submit_responses keep_digits "2024-05-01T10:00:00" sample_payload empty_store
    = (st', Returned resp)
    /\ odict_lookup (participants st') "p1" = Some entry
    /\ stored_answers entry = build_answer_vector (answers sample_payload).
Proof.
  destruct (submit_stores_participant keep_digits "2024-05-01T10:00:00"
              sample_payload empty_store sample_payload_int64)
    as (st' & resp & entry & Hsubmit & Hentry & _ & _ & Hanswers & _).
  exists st', resp, entry. split; [exact Hsubmit|]. split; assumption.
Defined.

Lemma submit_appends_history_witness :
  exists (st' : Store) (resp : SubmitResponse),
    submit_responses keep_digits "2024-05-01T10:00:00" sample_payload empty_store
    = (st', Returned resp)
    /\ profile_snapshots st' = [response_profile_snapshot resp]
    /\ odict_keys (participants st') = ["p1"].
Proof.
  destruct (submit_responses_returns keep_digits "2024-05-01T10:00:00"
              sample_payload empty_store sample_payload_int64)
    as (st' & resp & Hsubmit).
  exists st', resp. split; [exact Hsubmit|].
  destruct (submit_appends_history keep_digits _ _ _ _ _ Hsubmit)
    as (Hhist & _ & _ & _ & Hkeys).
  split; [exact Hhist | exact Hkeys].
Defined.

Lemma handlers_keep_store_wf_witness :
  store_wf (submit_responses keep_digits "2024-05-01T10:00:00" sample_payload
              empty_store).1.
Proof.
  destruct (handlers_keep_store_wf keep_digits) as (Hempty & Hsubmit & _).
  apply Hsubmit. exact Hempty.
Defined.



Lemma first_submission_after_reset_witness :
  exists (st' : Store) (resp : SubmitResponse),
    submit_responses keep_digits "2024-05-01T10:00:00" sample_payload
      (reset empty_store).1 = (st', Returned resp)
    /\ highly_similar_participants resp = []
    /\ has_similar_matches resp = false.
Proof.
  destruct (submit_responses_returns keep_digits "2024-05-01T10:00:00"
              sample_payload (reset empty_store).1 sample_payload_int64)
    as (st' & resp & Hsubmit).
  exists st', resp. split; [exact Hsubmit|].
  destruct (first_submission_after_reset keep_digits _ _ _ _ _ Hsubmit)
    as (Hnone & Hhas & _).
  split; assumption.
Defined.




Lemma encoder_failure_gives_exact_ratio_witness :
  compute_similarity_with (fun _ => Raised ValueError)
    {[ "ack_1" := 1 ]} {[ "ack_1" := 2 ]}
  = Returned (Q2R 0).
Proof.
  apply (encoder_failure_gives_exact_ratio (fun _ => Raised ValueError)
           {[ "ack_1" := 1 ]} {[ "ack_1" := 2 ]} ValueError 0).
  - left. reflexivity.
  - intros Hempty. apply (f_equal (fun d => d !! "ack_1")) in Hempty.
    vm_compute in Hempty. discriminate Hempty.
  - intros Hempty. apply (f_equal (fun d => d !! "ack_1")) in Hempty.
    vm_compute in Hempty. discriminate Hempty.
  - vm_compute. reflexivity.
  - intros Heq. vm_compute in Heq. discriminate Heq.
Defined.
